(** * assertions-mate: hint resolution and input validation

    A shallow embedding of the Python package [assertions_mate]
    ([__init__.py], [error_models.py], [cql2_validator.py],
    [rego_validator.py], [cli.py]) and the properties of its hint resolver,
    its validators and its orchestrator.

    Python values are a small JSON-like universe, exceptions are explicit
    ([result]), pydantic models are records whose constructors run the
    declared field validation, and the three external engines (pygeofilter,
    regopy, the JSON-schema validator) are section variables. *)

From Stdlib Require Import String Ascii List ZArith Bool Arith Lia.
Import ListNotations.
Open Scope string_scope.

Set Implicit Arguments.

(* ------------------------------------------------------------------ *)
(** ** Python values, exceptions and the error monad                    *)
(* ------------------------------------------------------------------ *)

(** The values a YAML or JSON loader produces.  A [VDict] is a Python
    [dict] with string keys, kept as an association list in insertion
    order; [VOther] stands for a value of any other Python type, named by
    the text of [type(v)]. *)
#[warnings="-register-all"]
Inductive value : Type :=
| VNone
| VBool (b : bool)
| VNum (z : Z)
| VStr (s : string)
| VList (l : list value)
| VDict (d : list (string * value))
| VOther (type_name : string).

Definition dict := list (string * value).

Inductive exn : Type :=
| KeyError (key : string)
| TypeError (msg : string)
| AttributeError (msg : string)
| ValidationError (msg : string)
| EngineError (msg : string).

(** [str(e)] of an exception, as interpolated by the f-strings. *)
Definition exn_str (e : exn) : string :=
  match e with
  | KeyError k => "'" ++ k ++ "'"
  | TypeError m | AttributeError m | ValidationError m | EngineError m => m
  end.

Inductive result (A : Type) : Type :=
| Ok (a : A)
| Raise (e : exn).
Arguments Ok {A} a.
Arguments Raise {A} e.

Definition bind {A B} (m : result A) (k : A -> result B) : result B :=
  match m with
  | Ok a => k a
  | Raise e => Raise e
  end.

Notation "x <- m ;; k" := (bind m (fun x => k))
  (at level 61, m at next level, right associativity).

(** [try: m except Exception: h] *)
Definition try_except {A} (m : result A) (h : exn -> result A) : result A :=
  match m with
  | Ok a => Ok a
  | Raise e => h e
  end.

(** A [for] loop that threads an accumulator and stops at the first
    exception. *)
Fixpoint for_each {A S} (body : S -> A -> result S) (xs : list A) (s : S)
  : result S :=
  match xs with
  | [] => Ok s
  | x :: xs' => s' <- body s x ;; for_each body xs' s'
  end.

(** *** Strings and dicts *)

(** [needle in hay] on Python strings. *)
Fixpoint contains (needle hay : string) : bool :=
  prefix needle hay ||
  match hay with
  | EmptyString => false
  | String _ hay' => contains needle hay'
  end.

(** [s.split(sep)[-1]] for a one-character separator: the text after the
    last occurrence of [sep], the whole string when there is none. *)
Fixpoint last_segment_from (sep : ascii) (s acc : string) : string :=
  match s with
  | EmptyString => acc
  | String c s' =>
      if Ascii.eqb c sep then last_segment_from sep s' s'
      else last_segment_from sep s' acc
  end.

Definition last_segment (sep : ascii) (s : string) : string :=
  last_segment_from sep s s.

(** [d.get(k)]: [None] when the key is absent. *)
Fixpoint lookup (k : string) (d : dict) : option value :=
  match d with
  | [] => None
  | (k', v) :: d' => if String.eqb k k' then Some v else lookup k d'
  end.

(** [d[k]] *)
Definition getitem (d : dict) (k : string) : result value :=
  match lookup k d with
  | Some v => Ok v
  | None => Raise (KeyError k)
  end.

(** The text of [type(v)]. *)
Definition type_repr (v : value) : string :=
  match v with
  | VNone => "<class 'NoneType'>"
  | VBool _ => "<class 'bool'>"
  | VNum _ => "<class 'int'>"
  | VStr _ => "<class 'str'>"
  | VList _ => "<class 'list'>"
  | VDict _ => "<class 'dict'>"
  | VOther t => t
  end.

(* ------------------------------------------------------------------ *)
(** ** error_models.py                                                  *)
(* ------------------------------------------------------------------ *)

Module ErrorModels.

(** [constr(max_length=n)]: a [str] of at most [n] characters. *)
Definition constr (max_length : nat) (field : string) (v : value)
  : result string :=
  match v with
  | VStr s =>
      if (String.length s <=? max_length)%nat then Ok s
      else Raise (ValidationError (field ++ ": string too long"))
  | _ => Raise (ValidationError (field ++ ": string expected"))
  end.

Record ErrorDetail : Type := {
  ed_detail : string;
  ed_pointer : option string;
  ed_parameter : option string;
  ed_header : option string;
  ed_code : option string
}.

(** [ErrorDetail(pointer=..., detail=...)], the only way the validators
    build one: [detail] is a required string of at most 4096 characters,
    [pointer] is [None] or a string of at most 1024. *)
Definition ErrorDetail_init (pointer detail : value) : result ErrorDetail :=
  d <- constr 4096 "detail" detail ;;
  p <- match pointer with
       | VNone => Ok None
       | _ => s <- constr 1024 "pointer" pointer ;; Ok (Some s)
       end ;;
  Ok {| ed_detail := d; ed_pointer := p; ed_parameter := None;
        ed_header := None; ed_code := None |}.

Record ProblemDetails : Type := {
  pd_type : option string;
  pd_status : option Z;
  pd_title : option string;
  pd_detail : string;
  pd_instance : option string;
  pd_code : option string;
  pd_errors : option (list ErrorDetail)
}.

Definition business_rule_violation_type : string :=
  "https://problems-registry.smartbear.com/business-rule-violation".
Definition business_rule_violation_status : Z := 422.
Definition business_rule_violation_title : string :=
  "Business Rule Violation".
Definition business_rule_violation_detail : string :=
  "The request body is invalid and not meeting business rules.".

(** [BusinessRuleViolation(errors=errors_list)]: the four literal fields
    take their defaults; [errors] holds at most 1000 entries. *)
Definition BusinessRuleViolation (errors : list ErrorDetail)
  : result ProblemDetails :=
  if (List.length errors <=? 1000)%nat then
    Ok {| pd_type := Some business_rule_violation_type;
          pd_status := Some business_rule_violation_status;
          pd_title := Some business_rule_violation_title;
          pd_detail := business_rule_violation_detail;
          pd_instance := None;
          pd_code := None;
          pd_errors := Some errors |}
  else Raise (ValidationError "errors: list too long").

End ErrorModels.
Import ErrorModels.

(* ------------------------------------------------------------------ *)
(** ** __init__.py: hints and the hint resolver                         *)
(* ------------------------------------------------------------------ *)

Module Hints.

(** The workflow object of the document loader: [id], [class_],
    [cwlVersion] and [hints], which is [None] or a list whose elements
    are dicts or pass-through values. *)
Record Workflow : Type := {
  wf_id : string;
  wf_class_ : string;
  wf_cwlVersion : string;
  wf_hints : option (list value)
}.

Record Cql2Query : Type := {
  q_id : string;
  q_cql2 : value;
  q_message : string
}.

Inductive AssertionHint : Type :=
| JSONSchemaHint (parent_workflow : option Workflow) (json_schema : dict)
| RegoPolicyHint (parent_workflow : option Workflow)
                 (module : string) (queries : list string)
| Cql2FilterHint (parent_workflow : option Workflow)
                 (queries : list Cql2Query).

Definition parent_workflow_of (h : AssertionHint) : option Workflow :=
  match h with
  | JSONSchemaHint pw _ | RegoPolicyHint pw _ _ | Cql2FilterHint pw _ => pw
  end.

(** [type(h).__name__] *)
Definition class_name (h : AssertionHint) : string :=
  match h with
  | JSONSchemaHint _ _ => "JSONSchemaHint"
  | RegoPolicyHint _ _ _ => "RegoPolicyHint"
  | Cql2FilterHint _ _ => "Cql2FilterHint"
  end.

(** The three [get_annotation_name] static methods and the [annotation]
    property that returns them. *)
Definition JSONSchemaHint_get_annotation_name : string :=
  "eoap.ogc.org/inputs-json-schema".
Definition RegoPolicyHint_get_annotation_name : string :=
  "eoap.ogc.org/inputs-rego-policy".
Definition Cql2FilterHint_get_annotation_name : string :=
  "eoap.ogc.org/inputs-cql2-filter".

Definition annotation (h : AssertionHint) : string :=
  match h with
  | JSONSchemaHint _ _ => JSONSchemaHint_get_annotation_name
  | RegoPolicyHint _ _ _ => RegoPolicyHint_get_annotation_name
  | Cql2FilterHint _ _ => Cql2FilterHint_get_annotation_name
  end.

(** *** pydantic field validation (lax mode, on the value universe) *)

Definition required (field : string) (kwargs : dict) : result value :=
  match lookup field kwargs with
  | Some v => Ok v
  | None => Raise (ValidationError (field ++ ": field required"))
  end.

Definition pyd_str (field : string) (v : value) : result string :=
  match v with
  | VStr s => Ok s
  | _ => Raise (ValidationError (field ++ ": string expected"))
  end.

Definition pyd_mapping (field : string) (v : value) : result dict :=
  match v with
  | VDict d => Ok d
  | _ => Raise (ValidationError (field ++ ": mapping expected"))
  end.

Fixpoint map_result {A B} (f : A -> result B) (xs : list A)
  : result (list B) :=
  match xs with
  | [] => Ok []
  | x :: xs' => y <- f x ;; ys <- map_result f xs' ;; Ok (y :: ys)
  end.

Definition pyd_list {B} (field : string) (f : value -> result B)
           (v : value) : result (list B) :=
  match v with
  | VList l => map_result f l
  | _ => Raise (ValidationError (field ++ ": list expected"))
  end.

(** [cql2: str | Mapping[str, Any]] *)
Definition pyd_str_or_mapping (field : string) (v : value) : result value :=
  match v with
  | VStr _ | VDict _ => Ok v
  | _ => Raise (ValidationError (field ++ ": string or mapping expected"))
  end.

(** [Cql2Query] called with keyword arguments; fields that are not
    declared are ignored. *)
Definition Cql2Query_init (kwargs : dict) : result Cql2Query :=
  i <- (v <- required "id" kwargs ;; pyd_str "id" v) ;;
  c <- (v <- required "cql2" kwargs ;; pyd_str_or_mapping "cql2" v) ;;
  m <- (v <- required "message" kwargs ;; pyd_str "message" v) ;;
  Ok {| q_id := i; q_cql2 := c; q_message := m |}.

(** An element of [queries: List[Cql2Query]] given as a dict. *)
Definition Cql2Query_validate (v : value) : result Cql2Query :=
  match v with
  | VDict d => Cql2Query_init d
  | _ => Raise (ValidationError "queries: Cql2Query expected")
  end.

Definition JSONSchemaHint_init (pw : option Workflow) (kwargs : dict)
  : result AssertionHint :=
  js <- match lookup "json_schema" kwargs with
        | None => Ok []
        | Some v => pyd_mapping "json_schema" v
        end ;;
  Ok (JSONSchemaHint pw js).

Definition RegoPolicyHint_init (pw : option Workflow) (kwargs : dict)
  : result AssertionHint :=
  m <- (v <- required "module" kwargs ;; pyd_str "module" v) ;;
  qs <- (v <- required "queries" kwargs ;;
         pyd_list "queries" (pyd_str "queries") v) ;;
  Ok (RegoPolicyHint pw m qs).

Definition Cql2FilterHint_init (pw : option Workflow) (kwargs : dict)
  : result AssertionHint :=
  qs <- (v <- required "queries" kwargs ;;
         pyd_list "queries" Cql2Query_validate v) ;;
  Ok (Cql2FilterHint pw qs).

(** *** Serialization: the [ser_model] methods *)

(** A [Cql2Query] inside a serialized hint is dumped field by field. *)
Definition ser_query (q : Cql2Query) : value :=
  VDict [("id", VStr (q_id q)); ("cql2", q_cql2 q);
         ("message", VStr (q_message q))].

Section Resolver.

(** [BaseCWLtypes2OGCConverter(wf).get_inputs_json_schema()], the external
    type-conversion collaborator. *)
Variable get_inputs_json_schema : Workflow -> result dict.

Definition ser_model (h : AssertionHint) : result dict :=
  match h with
  | JSONSchemaHint (Some wf) _ => get_inputs_json_schema wf
  | JSONSchemaHint None json_schema => Ok json_schema
  | RegoPolicyHint _ module queries =>
      Ok [("queries", VList (map VStr queries)); ("module", VStr module)]
  | Cql2FilterHint _ queries =>
      Ok [("queries", VList (map ser_query queries))]
  end.

(** *** The module namespace, [globals()] *)

(** What a name of the module can be bound to: one of the three hint
    classes, [Cql2Query], or anything else the module imports or defines. *)
Inductive global : Type :=
| G_JSONSchemaHint
| G_RegoPolicyHint
| G_Cql2FilterHint
| G_Cql2Query
| G_other (name : string).

(** The other names bound at module level: the imports, the two abstract
    base classes, the two functions and the submodules of the package.
    Double-underscore names ([__name__], [__builtins__], ...) are bound
    too. *)
Definition other_module_level_names : list string :=
  [ "ProblemDetails"; "ABC"; "abstractmethod"; "BaseCWLtypes2OGCConverter";
    "logger"; "BaseModel"; "computed_field"; "model_serializer";
    "Any"; "List"; "Mapping"; "Optional";
    "BaseValidator"; "AssertionHint";
    "_get_assertion_hint_by_name"; "extract_assertion_hints";
    "error_models"; "jsonschema_validator"; "rego_validator";
    "cql2_validator"; "cli" ].

Definition module_level_name (name : string) : bool :=
  existsb (String.eqb name)
    ("JSONSchemaHint" :: "RegoPolicyHint" :: "Cql2FilterHint" :: "Cql2Query"
       :: other_module_level_names)
  || prefix "__" name.

(** [globals()[name]] *)
Definition globals (name : string) : result global :=
  if name =? "JSONSchemaHint" then Ok G_JSONSchemaHint
  else if name =? "RegoPolicyHint" then Ok G_RegoPolicyHint
  else if name =? "Cql2FilterHint" then Ok G_Cql2FilterHint
  else if name =? "Cql2Query" then Ok G_Cql2Query
  else if module_level_name name then Ok (G_other name)
  else Raise (KeyError name).

(** What the resolver can return: a hint, or an instance of another class
    of the module that the record happened to name. *)
Inductive obj : Type :=
| OHint (h : AssertionHint)
| OCql2Query (q : Cql2Query)
| OOther (name : string) (kwargs : dict).

(** Whether calling another module-level binding with the record's fields
    as keyword arguments returns an instance (as [ProblemDetails] does for
    a record with a [detail] string) or raises (as the abstract classes,
    the typing aliases, the functions and the modules do). *)
Variable other_global_accepts : string -> dict -> bool.

(** [hint_kind(parent_workflow=parent_workflow, **hint)] *)
Definition call_hint_kind (hint_kind : global)
           (parent_workflow : option Workflow) (hint : dict) : result obj :=
  match lookup "parent_workflow" hint with
  | Some _ =>
      Raise (TypeError
               "got multiple values for keyword argument 'parent_workflow'")
  | None =>
      match hint_kind with
      | G_JSONSchemaHint =>
          h <- JSONSchemaHint_init parent_workflow hint ;; Ok (OHint h)
      | G_RegoPolicyHint =>
          h <- RegoPolicyHint_init parent_workflow hint ;; Ok (OHint h)
      | G_Cql2FilterHint =>
          h <- Cql2FilterHint_init parent_workflow hint ;; Ok (OHint h)
      | G_Cql2Query =>
          q <- Cql2Query_init hint ;; Ok (OCql2Query q)
      | G_other name =>
          if other_global_accepts name hint then Ok (OOther name hint)
          else Raise (TypeError (name ++ ": call failed"))
      end
  end.

(** ['eoap:' in fqn_hint_kind], by the type of the discriminator. *)
Definition eoap_in (fqn_hint_kind : value) : result bool :=
  match fqn_hint_kind with
  | VStr c => Ok (contains "eoap:" c)
  | VList l =>
      Ok (existsb (fun x => match x with
                            | VStr s => s =? "eoap:"
                            | _ => false
                            end) l)
  | VDict d => Ok (match lookup "eoap:" d with Some _ => true | None => false end)
  | _ => Raise (TypeError "argument is not iterable")
  end.

(** [fqn_hint_kind.split(':')[-1]] *)
Definition split_last (fqn_hint_kind : value) : result string :=
  match fqn_hint_kind with
  | VStr c => Ok (last_segment ":" c)
  | _ => Raise (AttributeError "object has no attribute 'split'")
  end.

Definition _get_assertion_hint_by_name
           (parent_workflow : option Workflow) (hint : dict)
  : result (option obj) :=
  fqn_hint_kind <- getitem hint "class" ;;
  marked <- eoap_in fqn_hint_kind ;;
  if marked then
    hint_kind_name <- split_last fqn_hint_kind ;;
    try_except
      (hint_kind <- globals hint_kind_name ;;
       o <- call_hint_kind hint_kind parent_workflow hint ;;
       Ok (Some o))
      (fun _ => Ok None)
  else Ok None.

(** The body of the loop of [extract_assertion_hints]: only dicts are
    looked at, and only a resolved instance is appended. *)
Definition extract_step (workflow : Workflow)
           (assertion_hints : list obj) (hint : value) : result (list obj) :=
  match hint with
  | VDict d =>
      hint_instance <- _get_assertion_hint_by_name (Some workflow) d ;;
      match hint_instance with
      | Some o => Ok (assertion_hints ++ [o])%list
      | None => Ok assertion_hints
      end
  | _ => Ok assertion_hints
  end.

Definition extract_assertion_hints (workflow : Workflow) : result (list obj) :=
  match wf_hints workflow with
  | Some ((_ :: _) as hints) => for_each (extract_step workflow) hints []
  | _ => Ok []
  end.

End Resolver.

End Hints.

(* ------------------------------------------------------------------ *)
(** ** cql2_validator.py                                                *)
(* ------------------------------------------------------------------ *)

Module Cql2.
Import Hints.

Section Engine.

(** pygeofilter: the two parsers return an AST node or raise, and
    [self.evaluator.evaluate(ast)(data)] is the truth value of the
    predicate on the input mapping, or an exception of the evaluator.  An
    AST node is an object, so the test [if ast:] only tells a parsed
    expression from the initial [None]. *)
Variable Ast : Type.
Variable parse_cql2_text : string -> result Ast.
Variable parse_cql2_json : dict -> result Ast.
Variable evaluate : Ast -> value -> result bool.

(** The validator keeps its queries; its evaluator is the fixed
    [NativeEvaluator] above. *)
Record Cql2Validator : Type := { queries : list Cql2Query }.

Definition text_error (e : exn) : string :=
  "Filter does not look like a valid CQL2 Text encoded sentece: "
  ++ exn_str e.

Definition json_error (e : exn) : string :=
  "Filter does not look like a valid CQL2 JSON encoded structure: "
  ++ exn_str e.

Definition format_error (cql2 : value) : string :=
  "Filter is expressed in an unrecognizible format: " ++ type_repr cql2.

(** Lines 72-100: [ast] starts as [None]; a parser that raises, or an
    expression that is neither a string nor a dict, appends one entry and
    leaves [ast] at [None]. *)
Definition parse_filter (errors_list : list ErrorDetail) (filter : Cql2Query)
  : result (option Ast * list ErrorDetail) :=
  match q_cql2 filter with
  | VStr s =>
      match parse_cql2_text s with
      | Ok ast => Ok (Some ast, errors_list)
      | Raise e =>
          ed <- ErrorDetail_init (VStr (q_id filter)) (VStr (text_error e)) ;;
          Ok (None, (errors_list ++ [ed])%list)
      end
  | VDict d =>
      match parse_cql2_json d with
      | Ok ast => Ok (Some ast, errors_list)
      | Raise e =>
          ed <- ErrorDetail_init (VStr (q_id filter)) (VStr (json_error e)) ;;
          Ok (None, (errors_list ++ [ed])%list)
      end
  | other =>
      ed <- ErrorDetail_init (VStr (q_id filter))
                             (VStr (format_error other)) ;;
      Ok (None, (errors_list ++ [ed])%list)
  end.

(** The whole loop body, lines 72-111. *)
Definition check_filter (data : value)
           (errors_list : list ErrorDetail) (filter : Cql2Query)
  : result (list ErrorDetail) :=
  parsed <- parse_filter errors_list filter ;;
  match parsed with
  | (Some ast, errors_list) =>
      holds <- evaluate ast data ;;
      if negb holds then
        ed <- ErrorDetail_init (VStr (q_id filter))
                               (VStr (q_message filter)) ;;
        Ok (errors_list ++ [ed])%list
      else Ok errors_list
  | (None, errors_list) => Ok errors_list
  end.

Definition validate_inputs (self : Cql2Validator) (data : value)
  : result (option ProblemDetails) :=
  errors_list <- for_each (check_filter data) (queries self) [] ;;
  match errors_list with
  | _ :: _ => pd <- BusinessRuleViolation errors_list ;; Ok (Some pd)
  | [] => Ok None
  end.

End Engine.

End Cql2.

(* ------------------------------------------------------------------ *)
(** ** rego_validator.py                                                *)
(* ------------------------------------------------------------------ *)

Module Rego.

(** The state of a regopy [Interpreter] that the validator touches: the
    modules added to it and the current input document. *)
Record Interpreter : Type := {
  modules : list (string * string);
  input : option value
}.

Definition add_module (rego : Interpreter) (name source : string)
  : Interpreter :=
  {| modules := (modules rego ++ [(name, source)])%list;
     input := input rego |}.

Definition set_input (rego : Interpreter) (data : value) : Interpreter :=
  {| modules := modules rego; input := Some data |}.

Record RegoValidator : Type := {
  rego : Interpreter;
  queries : list string
}.

Section Engine.

(** regopy: [compile_module] is the check [add_module] performs on the
    module source, and [rego_query] evaluates a query on the modules and
    the input of the interpreter, giving the result rows, each with its
    list of expression values, or an exception of the engine. *)
Variable compile_module : string -> result unit.
Variable rego_query : Interpreter -> string -> result (list (list value)).

(** [RegoValidator(module=..., queries=...)] *)
Definition RegoValidator_init (module : string) (queries : list string)
  : result RegoValidator :=
  _ <- compile_module module ;;
  Ok {| rego := add_module {| modules := []; input := None |}
                           "workflow" module;
        queries := queries |}.

(** The inner loop body: a row without expressions is skipped, any other
    row appends one entry built from its first expression. *)
Definition check_result (query : string)
           (errors_list : list ErrorDetail) (exprs : list value)
  : result (list ErrorDetail) :=
  match exprs with
  | [] => Ok errors_list
  | first :: _ =>
      ed <- ErrorDetail_init (VStr query) first ;;
      Ok (errors_list ++ [ed])%list
  end.

Definition check_query (rego : Interpreter)
           (errors_list : list ErrorDetail) (query : string)
  : result (list ErrorDetail) :=
  results <- rego_query rego query ;;
  for_each (check_result query) results errors_list.

(** [validate_inputs] returns the validator as the call leaves it (the
    input stays set, also when the call raises) and the outcome. *)
Definition validate_inputs (self : RegoValidator) (data : value)
  : RegoValidator * result (option ProblemDetails) :=
  let self' := {| rego := set_input (rego self) data;
                  queries := queries self |} in
  (self',
   errors_list <- for_each (check_query (rego self')) (queries self') [] ;;
   match errors_list with
   | _ :: _ => pd <- BusinessRuleViolation errors_list ;; Ok (Some pd)
   | [] => Ok None
   end).

End Engine.

End Rego.

(* ------------------------------------------------------------------ *)
(** ** cli.py: the orchestrator                                         *)
(* ------------------------------------------------------------------ *)

Module Cli.
Import Hints.

(** The lines [_scan_workflow] logs, in order. *)
Inductive event : Type :=
| SettingUp (class_name : string)
| SetupError (class_name : string) (e : exn)
| SetupOver
| Executing (class_name : string)
| DetectedViolations (class_name : string)
| Violation (pointer : option string) (detail : string)
| NoViolations (class_name : string)
| NoValidators.

Section Orchestrator.

Variable Ast : Type.
Variable parse_cql2_text : string -> result Ast.
Variable parse_cql2_json : dict -> result Ast.
Variable evaluate : Ast -> value -> result bool.
Variable compile_module : string -> result unit.
Variable rego_query : Rego.Interpreter -> string -> result (list (list value)).
Variable get_inputs_json_schema : Workflow -> result dict.
Variable other_global_accepts : string -> dict -> bool.

(** The module [jsonschema_validator] lies outside this development: the
    construction of a [JSONSchemaValidator] from a schema and its
    [validate_inputs] are taken as they come. *)
Variable JSONSchemaValidator_init : dict -> result unit.
Variable JSONSchemaValidator_validate_inputs :
  dict -> value -> result (option ProblemDetails).

Inductive Validator : Type :=
| V_JSONSchema (schema : dict)
| V_Rego (v : Rego.RegoValidator)
| V_Cql2 (v : Cql2.Cql2Validator).

(** [type(validator).__name__] *)
Definition validator_class (v : Validator) : string :=
  match v with
  | V_JSONSchema _ => "JSONSchemaValidator"
  | V_Rego _ => "RegoValidator"
  | V_Cql2 _ => "Cql2Validator"
  end.

(** The [validator()] method of each hint class. *)
Definition validator (h : AssertionHint) : result Validator :=
  match h with
  | JSONSchemaHint parent_workflow json_schema =>
      schema <- match parent_workflow with
                | Some wf => get_inputs_json_schema wf
                | None => Ok json_schema
                end ;;
      _ <- JSONSchemaValidator_init schema ;;
      Ok (V_JSONSchema schema)
  | RegoPolicyHint _ module queries =>
      v <- Rego.RegoValidator_init compile_module module queries ;;
      Ok (V_Rego v)
  | Cql2FilterHint _ queries =>
      Ok (V_Cql2 {| Cql2.queries := queries |})
  end.

(** [type(hint_instance).__name__] and [hint_instance.validator()] on
    whatever the resolver returned. *)
Definition obj_class (o : obj) : string :=
  match o with
  | OHint h => class_name h
  | OCql2Query _ => "Cql2Query"
  | OOther name _ => name
  end.

Definition obj_validator (o : obj) : result Validator :=
  match o with
  | OHint h => validator h
  | _ => Raise (AttributeError "object has no attribute 'validator'")
  end.

(** [validator.validate_inputs(data)] by dynamic dispatch: the instance as
    the call leaves it, and the outcome.  Only the policy validator
    changes (its interpreter keeps the input). *)
Definition invoke (v : Validator) (data : value)
  : Validator * result (option ProblemDetails) :=
  match v with
  | V_JSONSchema schema =>
      (v, JSONSchemaValidator_validate_inputs schema data)
  | V_Rego r =>
      let '(r', outcome) := Rego.validate_inputs rego_query r data in
      (V_Rego r', outcome)
  | V_Cql2 c =>
      (v, Cql2.validate_inputs parse_cql2_text parse_cql2_json evaluate c data)
  end.

Definition validate_inputs (v : Validator) (data : value)
  : result (option ProblemDetails) :=
  snd (invoke v data).

(** The prepare loop, lines 47-53: a [validator()] that raises is logged
    and its hint left out. *)
Fixpoint prepare (hint_instances : list obj)
         (validators : list Validator) (log : list event)
  : list Validator * list event :=
  match hint_instances with
  | [] => (validators, log)
  | hint_instance :: rest =>
      let log := (log ++ [SettingUp (obj_class hint_instance)])%list in
      match obj_validator hint_instance with
      | Ok v => prepare rest (validators ++ [v])%list log
      | Raise e =>
          prepare rest validators
                  (log ++ [SetupError (obj_class hint_instance) e])%list
      end
  end.

(** The run loop, lines 58-68: nothing catches an exception of
    [validate_inputs]. *)
Fixpoint run (validators : list Validator) (inputs : value)
         (log : list event) : list event * result unit :=
  match validators with
  | [] => (log, Ok tt)
  | v :: rest =>
      let log := (log ++ [Executing (validator_class v)])%list in
      match validate_inputs v inputs with
      | Raise e => (log, Raise e)
      | Ok (Some problem_details) =>
          let log := (log ++ [DetectedViolations (validator_class v)])%list in
          match pd_errors problem_details with
          | Some errors =>
              run rest inputs
                  (log ++ map (fun ed => Violation (ed_pointer ed)
                                                   (ed_detail ed)) errors)%list
          | None => (log, Raise (TypeError "'NoneType' object is not iterable"))
          end
      | Ok None =>
          run rest inputs (log ++ [NoViolations (validator_class v)])%list
      end
  end.

(** [_scan_workflow]: what it logs, and whether it returns or raises. *)
Definition _scan_workflow (wf : Workflow) (inputs : value)
  : list event * result unit :=
  match extract_assertion_hints other_global_accepts wf with
  | Raise e => ([], Raise e)
  | Ok hint_instances =>
      let '(validators, log) := prepare hint_instances [] [] in
      match validators with
      | _ :: _ => run validators inputs (log ++ [SetupOver])%list
      | [] => ((log ++ [NoValidators])%list, Ok tt)
      end
  end.

End Orchestrator.

End Cli.

(* ------------------------------------------------------------------ *)
(** ** Sample engines and documents                                     *)
(* ------------------------------------------------------------------ *)

(** Small stand-ins for the external engines, used to run the code on
    concrete documents. *)
Module Sample.
Import Hints.

(** A filter language with three sentences. *)
Inductive ast : Type := A_true | A_false | A_crash.

Definition parse_text (s : string) : result ast :=
  if s =? "TRUE" then Ok A_true
  else if s =? "FALSE" then Ok A_false
  else if s =? "missing > 0" then Ok A_crash
  else Raise (EngineError "unexpected token").

Definition parse_json (d : dict) : result ast :=
  match lookup "op" d with
  | Some (VStr "true") => Ok A_true
  | Some (VStr "false") => Ok A_false
  | _ => Raise (EngineError "unknown operator")
  end.

Definition eval (a : ast) (data : value) : result bool :=
  match a with
  | A_true => Ok true
  | A_false => Ok false
  | A_crash => Raise (KeyError "missing")
  end.

(** A policy engine with five queries; [input.message] echoes the
    [message] entry of the input document. *)
Definition compile (source : string) : result unit :=
  if prefix "package " source then Ok tt
  else Raise (EngineError "rego_parse_error").

Definition query (rego : Rego.Interpreter) (q : string)
  : result (list (list value)) :=
  if q =? "data.workflow.deny[_]" then Ok [[VStr "denied"]]
  else if q =? "data.workflow.allow" then Ok [[VBool true]]
  else if q =? "data.workflow.none" then Ok []
  else if q =? "data.workflow.blank" then Ok [[]]
  else if q =? "input.message" then
    match Rego.input rego with
    | Some (VDict d) =>
        match lookup "message" d with
        | Some v => Ok [[v]]
        | None => Ok []
        end
    | _ => Ok []
    end
  else Raise (EngineError "rego_parse_error").

Definition no_other_global (name : string) (kwargs : dict) : bool := false.

Definition no_schema (wf : Workflow) : result dict :=
  Raise (EngineError "no inputs").

Definition schema_init (schema : dict) : result unit := Ok tt.
Definition schema_validate (schema : dict) (data : value)
  : result (option ProblemDetails) := Ok None.

Definition workflow_with (hints : list value) : Workflow :=
  {| wf_id := "file:///app.cwl#main"; wf_class_ := "Workflow";
     wf_cwlVersion := "v1.2"; wf_hints := Some hints |}.

Definition policy_record : dict :=
  [("class", VStr "eoap:RegoPolicyHint");
   ("module", VStr "package workflow");
   ("queries", VList [VStr "data.workflow.deny[_]"])].

Definition filter_record : dict :=
  [("class", VStr "eoap:Cql2FilterHint");
   ("queries", VList [VDict [("id", VStr "q1"); ("cql2", VStr "FALSE");
                             ("message", VStr "out of area")]])].


Definition schema_record : dict :=
  [("class", VStr "eoap:JSONSchemaHint");
   ("json_schema", VDict [("type", VStr "object")])].

(** A string of [n] characters. *)
Fixpoint repeat_char (c : ascii) (n : nat) : string :=
  match n with
  | O => EmptyString
  | S n' => String c (repeat_char c n')
  end.

(** Filter queries: one that does not parse, one that is false, one that is
    true, one whose evaluation raises, and one with an id of 1025
    characters that does not parse. *)
Definition q_bad : Cql2Query :=
  {| q_id := "bad"; q_cql2 := VStr "not cql2"; q_message := "never shown" |}.
Definition q_false : Cql2Query :=
  {| q_id := "area"; q_cql2 := VStr "FALSE"; q_message := "out of area" |}.
Definition q_true : Cql2Query :=
  {| q_id := "date"; q_cql2 := VDict [("op", VStr "true")];
     q_message := "too old" |}.
Definition q_crash : Cql2Query :=
  {| q_id := "crash"; q_cql2 := VStr "missing > 0"; q_message := "missing" |}.
Definition q_long_id : Cql2Query :=
  {| q_id := repeat_char "q" 1025; q_cql2 := VStr "not cql2";
     q_message := "never shown" |}.

Definition filter_validator : Cql2.Cql2Validator :=
  {| Cql2.queries := [q_bad; q_false; q_true] |}.

(** Policy validators over the sample engine. *)
Definition policy_validator (queries : list string) : Rego.RegoValidator :=
  {| Rego.rego := Rego.add_module {| Rego.modules := []; Rego.input := None |}
                                  "workflow" "package workflow";
     Rego.queries := queries |}.

Definition sample_queries : list string :=
  ["data.workflow.none"; "data.workflow.deny[_]"; "data.workflow.blank";
   "input.message"].

Definition crash_record : dict :=
  [("class", VStr "eoap:Cql2FilterHint");
   ("queries", VList [VDict [("id", VStr "crash");
                             ("cql2", VStr "missing > 0");
                             ("message", VStr "missing")]])].

Definition broken_policy_record : dict :=
  [("class", VStr "eoap:RegoPolicyHint");
   ("module", VStr "not a module");
   ("queries", VList [VStr "data.workflow.deny[_]"])].

End Sample.

(* ------------------------------------------------------------------ *)
(** ** Vocabulary of the specification                                  *)
(* ------------------------------------------------------------------ *)

Module Spec.
Import Hints.

(** The namespace prefix of the hint discriminators and the class names
    of the three known kinds (schema, policy, filter). *)
Definition namespace_prefix : string := "eoap:".




(** A raw hint record carries a [class] discriminator string; the other
    elements of a hint sequence are pass-through values. *)
Definition has_class (d : dict) : bool :=
  match lookup "class" d with
  | Some (VStr _) => true
  | _ => false
  end.

Definition raw_hint (v : value) : bool :=
  match v with
  | VDict d => has_class d
  | _ => true
  end.



(** The annotation name fixed for each kind. *)
Definition annotation_name_of (kind : string) : option string :=
  if kind =? "JSONSchemaHint" then Some JSONSchemaHint_get_annotation_name
  else if kind =? "RegoPolicyHint" then Some RegoPolicyHint_get_annotation_name
  else if kind =? "Cql2FilterHint" then Some Cql2FilterHint_get_annotation_name
  else None.

(** The instances a sequence of hint elements resolves to, one element
    at a time: a record that does not resolve contributes nothing. *)
Definition resolved_of (other_global_accepts : string -> dict -> bool)
           (workflow : Workflow) (hints : list value) : list obj :=
  flat_map (fun hint =>
              match hint with
              | VDict d =>
                  match _get_assertion_hint_by_name other_global_accepts
                                                    (Some workflow) d with
                  | Ok (Some o) => [o]
                  | _ => []
                  end
              | _ => []
              end) hints.

(** The declaration a serialized hint stands for once its discriminator
    is put back. *)
Definition declaration_of (h : AssertionHint) (serialized : dict) : dict :=
  ("class", VStr (namespace_prefix ++ class_name h)) :: serialized.

(** A validated query holds a textual or a structured expression. *)
Definition validated_query (q : Cql2Query) : bool :=
  match q_cql2 q with
  | VStr _ | VDict _ => true
  | _ => false
  end.

Definition is_schema_hint (h : AssertionHint) : bool :=
  match h with
  | JSONSchemaHint _ _ => true
  | _ => false
  end.

(** *** Reports *)

(** The Error Detail with a pointer and a detail text. *)
Definition entry (finding : string * string) : ErrorDetail :=
  {| ed_detail := snd finding; ed_pointer := Some (fst finding);
     ed_parameter := None; ed_header := None; ed_code := None |}.

(** What a validator returns for a list of entries: none when there is
    no entry, a business-rule-violation report with these entries
    otherwise. *)
Definition report (errors : list ErrorDetail) : option ProblemDetails :=
  match errors with
  | [] => None
  | _ :: _ =>
      Some {| pd_type := Some business_rule_violation_type;
              pd_status := Some business_rule_violation_status;
              pd_title := Some business_rule_violation_title;
              pd_detail := business_rule_violation_detail;
              pd_instance := None;
              pd_code := None;
              pd_errors := Some errors |}
  end.

(** A report of the business-rule-violation kind with a non-empty list of
    errors. *)
Definition business_rule_violation (r : ProblemDetails) : Prop :=
  pd_type r = Some "https://problems-registry.smartbear.com/business-rule-violation"
  /\ pd_status r = Some 422%Z
  /\ pd_title r = Some "Business Rule Violation"
  /\ exists errors, pd_errors r = Some errors /\ errors <> [].

(** The limits of the Error Detail fields and of the errors list. *)
Definition fits_limits (findings : list (string * string)) : bool :=
  forallb (fun f => (String.length (fst f) <=? 1024)%nat
                    && (String.length (snd f) <=? 4096)%nat) findings
  && (List.length findings <=? 1000)%nat.

(** The validators of the filter and of the policy kind. *)
Definition filter_or_policy (v : Cli.Validator) : bool :=
  match v with
  | Cli.V_JSONSchema _ => false
  | Cli.V_Rego _ | Cli.V_Cql2 _ => true
  end.

Definition is_ok {A} (r : result A) : bool :=
  match r with
  | Ok _ => true
  | Raise _ => false
  end.

(** *** Filter queries *)

Section FilterSpec.

Variable Ast : Type.
Variable parse_cql2_text : string -> result Ast.
Variable parse_cql2_json : dict -> result Ast.
Variable evaluate : Ast -> value -> result bool.

(** The outcome of parsing a query, by the shape of its expression: the
    AST, the text of the parse error, or the unrecognized-format text. *)
Definition parse_query (q : Cql2Query) : string + Ast :=
  match q_cql2 q with
  | VStr s =>
      match parse_cql2_text s with
      | Ok ast => inr ast
      | Raise e => inl (Cql2.text_error e)
      end
  | VDict d =>
      match parse_cql2_json d with
      | Ok ast => inr ast
      | Raise e => inl (Cql2.json_error e)
      end
  | other => inl (Cql2.format_error other)
  end.

Definition parse_fails (q : Cql2Query) : bool :=
  match parse_query q with
  | inl _ => true
  | inr _ => false
  end.

(** The query parses and its predicate has the given truth value on the
    input mapping. *)
Definition predicate_is (b : bool) (data : value) (q : Cql2Query) : Prop :=
  exists ast, parse_query q = inr ast /\ evaluate ast data = Ok b.

(** The query does not parse, or the evaluation of its predicate returns. *)
Definition evaluation_returns (data : value) (q : Cql2Query) : bool :=
  match parse_query q with
  | inl _ => true
  | inr ast => is_ok (evaluate ast data)
  end.

(** What one query contributes: the parse error under its id when it does
    not parse, its message under its id when its predicate is false,
    nothing otherwise. *)
Definition filter_finding (data : value) (q : Cql2Query)
  : list (string * string) :=
  match parse_query q with
  | inl error => [(q_id q, error)]
  | inr ast =>
      match evaluate ast data with
      | Ok false => [(q_id q, q_message q)]
      | _ => []
      end
  end.

Definition filter_findings (data : value) (queries : list Cql2Query)
  : list (string * string) :=
  flat_map (filter_finding data) queries.

End FilterSpec.

(** *** Policy queries *)

Section PolicySpec.

Variable rego_query : Rego.Interpreter -> string -> result (list (list value)).

(** What one result row contributes: its first expression value under the
    query string when it has one. *)
Definition row_finding (query : string) (exprs : list value)
  : list (string * value) :=
  match exprs with
  | [] => []
  | first :: _ => [(query, first)]
  end.

Definition query_rows (rego : Rego.Interpreter) (query : string)
  : list (list value) :=
  match rego_query rego query with
  | Ok rows => rows
  | Raise _ => []
  end.

Definition policy_findings (rego : Rego.Interpreter) (queries : list string)
  : list (string * value) :=
  flat_map (fun query => flat_map (row_finding query) (query_rows rego query))
           queries.

Definition queries_return (rego : Rego.Interpreter) (queries : list string)
  : bool :=
  forallb (fun query => is_ok (rego_query rego query)) queries.

(** The first expression values are strings. *)
Definition text_of (v : value) : string :=
  match v with
  | VStr s => s
  | _ => ""
  end.

Definition is_text (v : value) : bool :=
  match v with
  | VStr _ => true
  | _ => false
  end.

Definition text_findings (findings : list (string * value))
  : list (string * string) :=
  map (fun f => (fst f, text_of (snd f))) findings.

End PolicySpec.

End Spec.

(* ------------------------------------------------------------------ *)
(** ** error_models.py: dumps, constructors from fields, problem kinds  *)
(* ------------------------------------------------------------------ *)

Module Problems.

(** [AssertionModel.model_dump]: [exclude_none] defaults to [True] unless
    the caller passes it; [mode] defaults to ['json']. *)
Definition exclude_none_default (exclude_none : option bool) : bool :=
  match exclude_none with
  | Some b => b
  | None => true
  end.

(** The entry of an optional string field in a dump. *)
Definition dump_optional (exclude_none : bool) (field : string)
           (o : option string) : dict :=
  match o with
  | Some s => [(field, VStr s)]
  | None => if exclude_none then [] else [(field, VNone)]
  end.

(** [ErrorDetail.model_dump(exclude_none=...)] *)
Definition ErrorDetail_model_dump (exclude_none : option bool)
           (e : ErrorDetail) : dict :=
  let x := exclude_none_default exclude_none in
  ([("detail", VStr (ed_detail e))]
     ++ dump_optional x "pointer" (ed_pointer e)
     ++ dump_optional x "parameter" (ed_parameter e)
     ++ dump_optional x "header" (ed_header e)
     ++ dump_optional x "code" (ed_code e))%list.

(** A field declared [Optional[constr(max_length=n)]] with default
    [None]. *)
Definition optional_constr (max_length : nat) (field : string)
           (kwargs : dict) : result (option string) :=
  match lookup field kwargs with
  | None | Some VNone => Ok None
  | Some v => s <- constr max_length field v ;; Ok (Some s)
  end.

(** [ErrorDetail] called with keyword arguments: [detail] is required,
    the four other fields are optional, undeclared fields are ignored. *)
Definition ErrorDetail_validate (kwargs : dict) : result ErrorDetail :=
  d <- match lookup "detail" kwargs with
       | Some v => constr 4096 "detail" v
       | None => Raise (ValidationError "detail: field required")
       end ;;
  p <- optional_constr 1024 "pointer" kwargs ;;
  pa <- optional_constr 1024 "parameter" kwargs ;;
  h <- optional_constr 1024 "header" kwargs ;;
  c <- optional_constr 50 "code" kwargs ;;
  Ok {| ed_detail := d; ed_pointer := p; ed_parameter := pa;
        ed_header := h; ed_code := c |}.

(** An element of [errors: List[ErrorDetail]] given as a dict. *)
Definition ErrorDetail_of_value (v : value) : result ErrorDetail :=
  match v with
  | VDict d => ErrorDetail_validate d
  | _ => Raise (ValidationError "errors: ErrorDetail expected")
  end.

(** The values of the enumeration [Type]. *)
Definition Type_values : list string :=
  [ "about:blank";
    "https://problems-registry.smartbear.com/already-exists";
    "https://problems-registry.smartbear.com/bad-request";
    "https://problems-registry.smartbear.com/business-rule-violation";
    "https://problems-registry.smartbear.com/forbidden";
    "https://problems-registry.smartbear.com/invalid-body-property-format";
    "https://problems-registry.smartbear.com/invalid-body-property-value";
    "https://problems-registry.smartbear.com/invalid-parameters";
    "https://problems-registry.smartbear.com/invalid-request-header-format";
    "https://problems-registry.smartbear.com/invalid-request-parameter-format";
    "https://problems-registry.smartbear.com/invalid-request-parameter-value";
    "https://problems-registry.smartbear.com/license-cancelled";
    "https://problems-registry.smartbear.com/license-expired";
    "https://problems-registry.smartbear.com/missing-body-property";
    "https://problems-registry.smartbear.com/missing-request-header";
    "https://problems-registry.smartbear.com/not-found";
    "https://problems-registry.smartbear.com/server-error";
    "https://problems-registry.smartbear.com/service-unavailable";
    "https://problems-registry.smartbear.com/unauthorized";
    "https://problems-registry.smartbear.com/validation-error" ].

(** The predefined problem kinds, the subclasses of [ProblemDetails]. *)
Inductive problem_kind : Type :=
| K_AlreadyExists
| K_BadRequest
| K_BusinessRuleViolation
| K_Forbidden
| K_InvalidBodyPropertyFormat
| K_InvalidBodyPropertyValue
| K_InvalidParameters
| K_InvalidRequestHeaderFormat
| K_InvalidRequestParameterFormat
| K_InvalidRequestParameterValue
| K_LicenseCancelled
| K_LicenseExpired
| K_MissingBodyProperty
| K_MissingRequestHeader
| K_MissingRequestParameter
| K_NotFound
| K_ServerError
| K_ServiceUnavailable
| K_Unauthorized
| K_ValidationError.

Definition all_kinds : list problem_kind :=
  [ K_AlreadyExists;
    K_BadRequest;
    K_BusinessRuleViolation;
    K_Forbidden;
    K_InvalidBodyPropertyFormat;
    K_InvalidBodyPropertyValue;
    K_InvalidParameters;
    K_InvalidRequestHeaderFormat;
    K_InvalidRequestParameterFormat;
    K_InvalidRequestParameterValue;
    K_LicenseCancelled;
    K_LicenseExpired;
    K_MissingBodyProperty;
    K_MissingRequestHeader;
    K_MissingRequestParameter;
    K_NotFound;
    K_ServerError;
    K_ServiceUnavailable;
    K_Unauthorized;
    K_ValidationError ].

(** The four literal fields of each kind. *)
Definition kind_type (k : problem_kind) : string :=
  match k with
  | K_AlreadyExists =>
      "https://problems-registry.smartbear.com/already-exists"
  | K_BadRequest =>
      "https://problems-registry.smartbear.com/bad-request"
  | K_BusinessRuleViolation =>
      "https://problems-registry.smartbear.com/business-rule-violation"
  | K_Forbidden =>
      "https://problems-registry.smartbear.com/forbidden"
  | K_InvalidBodyPropertyFormat =>
      "https://problems-registry.smartbear.com/invalid-body-property-format"
  | K_InvalidBodyPropertyValue =>
      "https://problems-registry.smartbear.com/invalid-body-property-value"
  | K_InvalidParameters =>
      "https://problems-registry.smartbear.com/invalid-parameters"
  | K_InvalidRequestHeaderFormat =>
      "https://problems-registry.smartbear.com/invalid-request-header-format"
  | K_InvalidRequestParameterFormat =>
      "https://problems-registry.smartbear.com/invalid-request-parameter-format"
  | K_InvalidRequestParameterValue =>
      "https://problems-registry.smartbear.com/invalid-request-parameter-value"
  | K_LicenseCancelled =>
      "https://problems-registry.smartbear.com/license-cancelled"
  | K_LicenseExpired =>
      "https://problems-registry.smartbear.com/license-expired"
  | K_MissingBodyProperty =>
      "https://problems-registry.smartbear.com/missing-body-property"
  | K_MissingRequestHeader =>
      "https://problems-registry.smartbear.com/missing-request-header"
  | K_MissingRequestParameter =>
      "https://problems-registry.smartbear.com/missing-request-parameter"
  | K_NotFound =>
      "https://problems-registry.smartbear.com/not-found"
  | K_ServerError =>
      "https://problems-registry.smartbear.com/server-error"
  | K_ServiceUnavailable =>
      "https://problems-registry.smartbear.com/service-unavailable"
  | K_Unauthorized =>
      "https://problems-registry.smartbear.com/unauthorized"
  | K_ValidationError =>
      "https://problems-registry.smartbear.com/validation-error"
  end.

Definition kind_status (k : problem_kind) : Z :=
  match k with
  | K_AlreadyExists =>
      409%Z
  | K_BadRequest =>
      400%Z
  | K_BusinessRuleViolation =>
      422%Z
  | K_Forbidden =>
      403%Z
  | K_InvalidBodyPropertyFormat =>
      400%Z
  | K_InvalidBodyPropertyValue =>
      400%Z
  | K_InvalidParameters =>
      400%Z
  | K_InvalidRequestHeaderFormat =>
      400%Z
  | K_InvalidRequestParameterFormat =>
      400%Z
  | K_InvalidRequestParameterValue =>
      400%Z
  | K_LicenseCancelled =>
      503%Z
  | K_LicenseExpired =>
      503%Z
  | K_MissingBodyProperty =>
      400%Z
  | K_MissingRequestHeader =>
      400%Z
  | K_MissingRequestParameter =>
      400%Z
  | K_NotFound =>
      404%Z
  | K_ServerError =>
      500%Z
  | K_ServiceUnavailable =>
      503%Z
  | K_Unauthorized =>
      401%Z
  | K_ValidationError =>
      422%Z
  end.

Definition kind_title (k : problem_kind) : string :=
  match k with
  | K_AlreadyExists =>
      "Already exists"
  | K_BadRequest =>
      "Bad Request"
  | K_BusinessRuleViolation =>
      "Business Rule Violation"
  | K_Forbidden =>
      "Forbidden"
  | K_InvalidBodyPropertyFormat =>
      "Invalid Body Property Format"
  | K_InvalidBodyPropertyValue =>
      "Invalid Body Property Value"
  | K_InvalidParameters =>
      "Invalid parameters"
  | K_InvalidRequestHeaderFormat =>
      "Invalid Request Header Format"
  | K_InvalidRequestParameterFormat =>
      "Invalid Request Parameter Format"
  | K_InvalidRequestParameterValue =>
      "Invalid Request Parameter Value"
  | K_LicenseCancelled =>
      "License Cancelled"
  | K_LicenseExpired =>
      "License Expired"
  | K_MissingBodyProperty =>
      "Missing body property"
  | K_MissingRequestHeader =>
      "Missing request header"
  | K_MissingRequestParameter =>
      "Missing request parameter"
  | K_NotFound =>
      "Not Found"
  | K_ServerError =>
      "Server Error"
  | K_ServiceUnavailable =>
      "Service Unavailable"
  | K_Unauthorized =>
      "Unauthorized"
  | K_ValidationError =>
      "Validation Error"
  end.

Definition kind_detail (k : problem_kind) : string :=
  match k with
  | K_AlreadyExists =>
      "The resource being created already exists."
  | K_BadRequest =>
      "The request is invalid or malformed."
  | K_BusinessRuleViolation =>
      "The request body is invalid and not meeting business rules."
  | K_Forbidden =>
      "The resource could not be returned as the requestor is not authorized."
  | K_InvalidBodyPropertyFormat =>
      "The request body contains a malformed property."
  | K_InvalidBodyPropertyValue =>
      "The request body contains an invalid body property value."
  | K_InvalidParameters =>
      "The request contained invalid, or malformed parameters (path or header or query)."
  | K_InvalidRequestHeaderFormat =>
      "The request contains a malformed request header parameter."
  | K_InvalidRequestParameterFormat =>
      "The request contains a malformed request query parameter."
  | K_InvalidRequestParameterValue =>
      "The request body contains an invalid request parameter value."
  | K_LicenseCancelled =>
      "The service is unavailable as the license associated with your client or organization has been cancelled. Please contact your account manager or representative."
  | K_LicenseExpired =>
      "The service is unavailable as the license associated with your client or organization has expired. Please contact your account manager or representative."
  | K_MissingBodyProperty =>
      "The request is missing an expected body property."
  | K_MissingRequestHeader =>
      "The request is missing an expected HTTP request header."
  | K_MissingRequestParameter =>
      "The request is missing an expected query or path parameter."
  | K_NotFound =>
      "The requested resource was not found."
  | K_ServerError =>
      "The server encountered an unexpected error."
  | K_ServiceUnavailable =>
      "The service is currently unavailable."
  | K_Unauthorized =>
      "Access token not set or invalid, and the requested resource could not be returned."
  | K_ValidationError =>
      "The request is not valid."
  end.

(** A field declared [Literal[expected]] with [expected] as default: a
    given value has to be that literal. *)
Definition literal_str (field expected : string) (kwargs : dict)
  : result string :=
  match lookup field kwargs with
  | None => Ok expected
  | Some (VStr s) =>
      if s =? expected then Ok expected
      else Raise (ValidationError (field ++ ": literal expected"))
  | Some _ => Raise (ValidationError (field ++ ": literal expected"))
  end.

Definition literal_int (field : string) (expected : Z) (kwargs : dict)
  : result Z :=
  match lookup field kwargs with
  | None => Ok expected
  | Some (VNum z) =>
      if (z =? expected)%Z then Ok expected
      else Raise (ValidationError (field ++ ": literal expected"))
  | Some _ => Raise (ValidationError (field ++ ": literal expected"))
  end.

(** [errors: Optional[List[ErrorDetail]]] with [max_length=1000]. *)
Definition errors_field (kwargs : dict) : result (option (list ErrorDetail)) :=
  match lookup "errors" kwargs with
  | None | Some VNone => Ok None
  | Some (VList l) =>
      if (List.length l <=? 1000)%nat then
        es <- Hints.map_result ErrorDetail_of_value l ;; Ok (Some es)
      else Raise (ValidationError "errors: list too long")
  | Some _ => Raise (ValidationError "errors: list expected")
  end.

(** The constructor of a problem kind called with keyword arguments. *)
Definition problem_init (k : problem_kind) (kwargs : dict)
  : result ProblemDetails :=
  ty <- literal_str "type" (kind_type k) kwargs ;;
  st <- literal_int "status" (kind_status k) kwargs ;;
  ti <- literal_str "title" (kind_title k) kwargs ;;
  de <- literal_str "detail" (kind_detail k) kwargs ;;
  i <- optional_constr 1024 "instance" kwargs ;;
  c <- optional_constr 50 "code" kwargs ;;
  es <- errors_field kwargs ;;
  Ok {| pd_type := Some ty; pd_status := Some st; pd_title := Some ti;
        pd_detail := de; pd_instance := i; pd_code := c;
        pd_errors := es |}.

(** [model_dump] of a problem report; the entries of [errors] are dumped
    with the same [exclude_none]. *)
Definition ProblemDetails_model_dump (exclude_none : option bool)
           (r : ProblemDetails) : dict :=
  let x := exclude_none_default exclude_none in
  (dump_optional x "type" (pd_type r)
     ++ match pd_status r with
        | Some z => [("status", VNum z)]
        | None => if x then [] else [("status", VNone)]
        end
     ++ dump_optional x "title" (pd_title r)
     ++ [("detail", VStr (pd_detail r))]
     ++ dump_optional x "instance" (pd_instance r)
     ++ dump_optional x "code" (pd_code r)
     ++ match pd_errors r with
        | Some es =>
            [("errors",
              VList (map (fun e => VDict (ErrorDetail_model_dump
                                            exclude_none e)) es))]
        | None => if x then [] else [("errors", VNone)]
        end)%list.

(** The limits an [ErrorDetail] instance keeps. *)
Definition within (max_length : nat) (o : option string) : bool :=
  match o with
  | Some s => (String.length s <=? max_length)%nat
  | None => true
  end.

Definition ErrorDetail_ok (e : ErrorDetail) : bool :=
  (String.length (ed_detail e) <=? 4096)%nat
  && within 1024 (ed_pointer e) && within 1024 (ed_parameter e)
  && within 1024 (ed_header e) && within 50 (ed_code e).

(** The literal fields and the limits an instance of a kind keeps. *)
Definition problem_ok (k : problem_kind) (r : ProblemDetails) : Prop :=
  pd_type r = Some (kind_type k) /\
  pd_status r = Some (kind_status k) /\
  pd_title r = Some (kind_title k) /\
  pd_detail r = kind_detail k /\
  within 1024 (pd_instance r) = true /\
  within 50 (pd_code r) = true /\
  match pd_errors r with
  | Some es => (List.length es <= 1000)%nat /\
               forallb ErrorDetail_ok es = true
  | None => True
  end.

(** A report of the kind [NotFound]. *)
Definition sample_report : ProblemDetails :=
  {| pd_type := Some (kind_type K_NotFound);
     pd_status := Some 404%Z;
     pd_title := Some "Not Found";
     pd_detail := "The requested resource was not found.";
     pd_instance := Some "/jobs/42";
     pd_code := None;
     pd_errors :=
       Some [{| ed_detail := "no such job"; ed_pointer := None;
                ed_parameter := Some "jobId"; ed_header := None;
                ed_code := None |}] |}.

End Problems.

(* ------------------------------------------------------------------ *)
(** ** cql2_validator.py: ensure_bbox                                   *)
(* ------------------------------------------------------------------ *)

Module Bbox.

(** [s.split(sep)] for a one-character separator: the pieces between the
    separators, at least one. *)
Fixpoint split_on (sep : ascii) (s : string) : list string :=
  match s with
  | EmptyString => [EmptyString]
  | String c s' =>
      if Ascii.eqb c sep then EmptyString :: split_on sep s'
      else match split_on sep s' with
           | piece :: rest => String c piece :: rest
           | [] => [String c EmptyString]
           end
  end.

(** [s.count(sep)] *)
Fixpoint count_char (sep : ascii) (s : string) : nat :=
  match s with
  | EmptyString => 0
  | String c s' => (if Ascii.eqb c sep then 1 else 0) + count_char sep s'
  end.

(** What [ensure_bbox] can raise: an exception of a builtin or of
    [geometry.box], its own [ValueError] for a mapping whose [bbox] is
    empty, or the [ValueError] of [float] on a piece of the string. *)
Inductive bbox_error : Type :=
| Builtin (e : exn)
| NoBbox (input : value)
| NotAFloat (piece : string).

Section Geometry.

(** [float(x)] on a string, [None] when it raises; [geometry.box] applied
    to the unpacked arguments; and the truth value of a value of a type
    outside the universe. *)
Variable Geometry : Type.
Variable float_of_string : string -> option value.
Variable box : list value -> result Geometry.
Variable other_truthy : string -> bool.

(** [bool(v)] *)
Definition truthy (v : value) : bool :=
  match v with
  | VNone => false
  | VBool b => b
  | VNum z => negb (z =? 0)%Z
  | VStr s => negb (s =? "")
  | VList l => match l with [] => false | _ :: _ => true end
  | VDict d => match d with [] => false | _ :: _ => true end
  | VOther t => other_truthy t
  end.

(** The positional arguments of [f( *v)]: the elements of a list, the
    characters of a string, the keys of a dict. *)
Definition unpack (v : value) : result (list value) :=
  match v with
  | VList l => Ok l
  | VStr s => Ok (map (fun c => VStr (String c EmptyString))
                      (list_ascii_of_string s))
  | VDict d => Ok (map (fun kv => VStr (fst kv)) d)
  | _ => Raise (TypeError "argument after * must be an iterable")
  end.

(** [[float(x) for x in pieces]], stopping at the first piece that is not
    a float. *)
Fixpoint floats (pieces : list string) : bbox_error + list value :=
  match pieces with
  | [] => inr []
  | piece :: rest =>
      match float_of_string piece with
      | None => inl (NotAFloat piece)
      | Some x =>
          match floats rest with
          | inr xs => inr (x :: xs)
          | inl e => inl e
          end
      end
  end.

(** [geometry.box( *value)] *)
Definition box_of (v : value) : bbox_error + Geometry :=
  match unpack v with
  | Raise e => inl (Builtin e)
  | Ok args =>
      match box args with
      | Ok g => inr g
      | Raise e => inl (Builtin e)
      end
  end.

Definition ensure_bbox (input : value) : bbox_error + Geometry :=
  match input with
  | VDict d =>
      match lookup "bbox" d with
      | None => inl (Builtin (KeyError "bbox"))
      | Some v => if truthy v then box_of v else inl (NoBbox input)
      end
  | VStr s =>
      match floats (split_on "," s) with
      | inr xs => box_of (VList xs)
      | inl e => inl e
      end
  | other => box_of other
  end.

End Geometry.

End Bbox.

(* ------------------------------------------------------------------ *)
(** ** cli.py: main                                                     *)
(* ------------------------------------------------------------------ *)

Module Main.
Import Hints.

(** What [load_document_by_uri] gives with [load_all=True]: one workflow
    or a list of them. *)
Inductive document : Type :=
| One (wf : Workflow)
| Many (wfs : list Workflow).

(** The lines of [main] after the documents are loaded: the lines of the
    scans and the closing banner. *)
Inductive line : Type :=
| Scan (e : Cli.event)
| ValidationComplete.

Section Main.

Variable Ast : Type.
Variable parse_cql2_text : string -> result Ast.
Variable parse_cql2_json : dict -> result Ast.
Variable evaluate : Ast -> value -> result bool.
Variable compile_module : string -> result unit.
Variable rego_query : Rego.Interpreter -> string -> result (list (list value)).
Variable get_inputs_json_schema : Workflow -> result dict.
Variable other_global_accepts : string -> dict -> bool.
Variable JSONSchemaValidator_init : dict -> result unit.
Variable JSONSchemaValidator_validate_inputs :
  dict -> value -> result (option ProblemDetails).

Definition scan (wf : Workflow) (inputs : value)
  : list Cli.event * result unit :=
  Cli._scan_workflow parse_cql2_text parse_cql2_json evaluate compile_module
                     rego_query get_inputs_json_schema other_global_accepts
                     JSONSchemaValidator_init
                     JSONSchemaValidator_validate_inputs wf inputs.

(** [for wf in cwl_document: _scan_workflow(wf, inputs_mapping)] *)
Fixpoint scan_each (wfs : list Workflow) (inputs : value)
  : list Cli.event * result unit :=
  match wfs with
  | [] => ([], Ok tt)
  | wf :: rest =>
      match scan wf inputs with
      | (log, Ok _) =>
          let '(log', outcome) := scan_each rest inputs in
          ((log ++ log')%list, outcome)
      | (log, Raise e) => (log, Raise e)
      end
  end.

(** [main] from the loaded document and inputs on. *)
Definition main (cwl_document : document) (inputs_mapping : value)
  : list line * result unit :=
  let '(log, outcome) :=
    match cwl_document with
    | Many wfs => scan_each wfs inputs_mapping
    | One wf => scan wf inputs_mapping
    end in
  match outcome with
  | Ok _ => ((map Scan log ++ [ValidationComplete])%list, Ok tt)
  | Raise e => (map Scan log, Raise e)
  end.

End Main.

End Main.

(* ------------------------------------------------------------------ *)
(** ** Vocabulary of the behaviour of the code                          *)
(* ------------------------------------------------------------------ *)

Module Behaviour.
Import Hints.

(** The fields of a record that the hint classes declare. *)
Definition hint_fields : list string :=
  ["parent_workflow"; "json_schema"; "module"; "queries"].

(** Two records with the same declared fields. *)
Definition same_hint_fields (hint hint' : dict) : Prop :=
  forall field, In field hint_fields -> lookup field hint' = lookup field hint.

Section Orchestrator.

Variable Ast : Type.
Variable parse_cql2_text : string -> result Ast.
Variable parse_cql2_json : dict -> result Ast.
Variable evaluate : Ast -> value -> result bool.
Variable compile_module : string -> result unit.
Variable rego_query : Rego.Interpreter -> string -> result (list (list value)).
Variable get_inputs_json_schema : Workflow -> result dict.
Variable JSONSchemaValidator_init : dict -> result unit.
Variable JSONSchemaValidator_validate_inputs :
  dict -> value -> result (option ProblemDetails).

Definition build (o : obj) : result Cli.Validator :=
  Cli.obj_validator compile_module get_inputs_json_schema
                    JSONSchemaValidator_init o.

Definition validate (v : Cli.Validator) (inputs : value)
  : result (option ProblemDetails) :=
  Cli.validate_inputs parse_cql2_text parse_cql2_json evaluate rego_query
                      JSONSchemaValidator_validate_inputs v inputs.

(** The validators of the instances whose [validator()] returns. *)
Definition built (hint_instances : list obj) : list Cli.Validator :=
  flat_map (fun o => match build o with
                     | Ok v => [v]
                     | Raise _ => []
                     end) hint_instances.

(** The lines of the prepare loop: one for every instance, and one more
    for every instance whose [validator()] raises. *)
Definition setup_lines (hint_instances : list obj) : list Cli.event :=
  flat_map (fun o =>
              Cli.SettingUp (Cli.obj_class o) ::
              match build o with
              | Ok _ => []
              | Raise e => [Cli.SetupError (Cli.obj_class o) e]
              end) hint_instances.

(** The lines of one validator in the run loop. *)
Definition validator_lines (inputs : value) (v : Cli.Validator)
  : list Cli.event :=
  Cli.Executing (Cli.validator_class v) ::
  match validate v inputs with
  | Ok None => [Cli.NoViolations (Cli.validator_class v)]
  | Ok (Some problem_details) =>
      Cli.DetectedViolations (Cli.validator_class v) ::
      match pd_errors problem_details with
      | Some errors =>
          map (fun ed => Cli.Violation (ed_pointer ed) (ed_detail ed)) errors
      | None => []
      end
  | Raise _ => []
  end.

(** The call of the validator returns, with a list of errors when it
    returns a report. *)
Definition returns_report (inputs : value) (v : Cli.Validator) : bool :=
  match validate v inputs with
  | Ok None => true
  | Ok (Some problem_details) =>
      match pd_errors problem_details with
      | Some _ => true
      | None => false
      end
  | Raise _ => false
  end.

End Orchestrator.

(** The result rows of a query up to their first expressions. *)
Definition first_expressions (rows : result (list (list value)))
  : result (list (list value)) :=
  match rows with
  | Ok rs => Ok (map (firstn 1) rs)
  | Raise e => Raise e
  end.

End Behaviour.

(* ------------------------------------------------------------------ *)
(** ** More sample engines                                              *)
(* ------------------------------------------------------------------ *)

Module SampleMore.
Import Hints Sample.

(** Decimal integers as the floats of the sample geometry. *)
Fixpoint digits_value (s : string) (acc : Z) : option Z :=
  match s with
  | EmptyString => Some acc
  | String c s' =>
      let n := Z.of_N (N_of_ascii c) in
      if ((48 <=? n) && (n <=? 57))%Z
      then digits_value s' (10 * acc + (n - 48))%Z
      else None
  end.

Definition float_of_string (s : string) : option value :=
  match s with
  | EmptyString => None
  | _ => option_map VNum (digits_value s 0)
  end.

(** A rectangle is its four coordinates. *)
Definition box (args : list value)
  : result (value * value * value * value) :=
  match args with
  | [minx; miny; maxx; maxy] => Ok (minx, miny, maxx, maxy)
  | _ => Raise (TypeError "box() takes 4 positional arguments")
  end.

Definition no_other_truthy (type_name : string) : bool := true.

(** The sample policy engine with a second expression in every row. *)
Definition query_with_bindings (rego : Rego.Interpreter) (q : string)
  : result (list (list value)) :=
  match query rego q with
  | Ok rows =>
      Ok (map (fun exprs => match exprs with
                            | [] => []
                            | first :: _ => [first; VStr "binding"]
                            end) rows)
  | Raise e => Raise e
  end.

(** A filter validator with 1001 queries that are false. *)
Definition many_false : Cql2.Cql2Validator :=
  {| Cql2.queries := repeat q_false 1001 |}.

End SampleMore.

(* ------------------------------------------------------------------ *)
(** * Properties                                                        *)
(* ------------------------------------------------------------------ *)

(** ** The error monad *)

Lemma bind_ok_inv {A B} (m : result A) (k : A -> result B) (b : B) :
  bind m k = Ok b -> exists a, m = Ok a /\ k a = Ok b.
Proof.
  destruct m as [a|e]; simpl; intros H; [eauto | discriminate].
Qed.

Ltac bind_inv H :=
  let a := fresh "a" in
  let Ha := fresh "Ha" in
  apply bind_ok_inv in H; destruct H as (a & Ha & H).

(** ** The hint resolver *)

Module ResolverFacts.
Import Hints Spec.

Section Resolver.

Variable accepts : string -> dict -> bool.
Variable get_schema : Workflow -> result dict.

Local Abbreviation resolve := (_get_assertion_hint_by_name accepts).

(** A record resolves to an instance exactly through the four steps of
    the function: a [class] string, the marker inside it, a module-level
    binding for its last segment, and a successful call. *)
Lemma resolve_some_inv pw hint o :
  resolve pw hint = Ok (Some o) ->
  exists c g,
    lookup "class" hint = Some (VStr c) /\
    contains "eoap:" c = true /\
    globals (last_segment ":" c) = Ok g /\
    call_hint_kind accepts g pw hint = Ok o.
Proof.
  unfold _get_assertion_hint_by_name, getitem.
  destruct (lookup "class" hint) as [v|] eqn:Hc; simpl; [|discriminate].
  destruct v as [ | b | z | c | l | d | t]; simpl; try discriminate.
  - destruct (contains "eoap:" c) eqn:Hm; simpl; [|discriminate].
    destruct (globals (last_segment ":" c)) as [g|e] eqn:Hg; simpl;
      [|discriminate].
    destruct (call_hint_kind accepts g pw hint) as [o'|e] eqn:Hcall; simpl;
      [|discriminate].
    intros H; injection H as <-. exists c, g. auto.
  - destruct (existsb _ l); simpl; discriminate.
  - destruct (lookup "eoap:" d); simpl; discriminate.
Qed.

Lemma resolve_class_string pw hint c :
  lookup "class" hint = Some (VStr c) ->
  resolve pw hint =
    if contains "eoap:" c then
      try_except
        (hint_kind <- globals (last_segment ":" c) ;;
         o <- call_hint_kind accepts hint_kind pw hint ;;
         Ok (Some o))
        (fun _ => Ok None)
    else Ok None.
Proof.
  intros Hc. unfold _get_assertion_hint_by_name, getitem. rewrite Hc. simpl.
  destruct (contains "eoap:" c); reflexivity.
Qed.

(** With a [class] string the resolver returns: every exception of the
    lookup and of the construction is caught. *)
Lemma resolve_total pw hint :
  has_class hint = true -> exists r, resolve pw hint = Ok r.
Proof.
  unfold has_class. destruct (lookup "class" hint) as [[]|] eqn:Hc;
    try discriminate.
  intros _. rewrite (resolve_class_string pw hint Hc).
  destruct (contains "eoap:" s); [|eauto].
  destruct (globals (last_segment ":" s)) as [g|e]; simpl; [|eauto].
  destruct (call_hint_kind accepts g pw hint); simpl; eauto.
Qed.


(** The class of a hint that [globals] and the call produced is the name
    that was looked up. *)
Lemma call_hint_inv name g pw hint h :
  globals name = Ok g ->
  call_hint_kind accepts g pw hint = Ok (OHint h) ->
  name = class_name h /\ parent_workflow_of h = pw /\
  lookup "parent_workflow" hint = None /\
  match h with
  | JSONSchemaHint _ _ => JSONSchemaHint_init pw hint = Ok h
  | RegoPolicyHint _ _ _ => RegoPolicyHint_init pw hint = Ok h
  | Cql2FilterHint _ _ => Cql2FilterHint_init pw hint = Ok h
  end.
Proof.
  unfold globals, call_hint_kind.
  destruct (lookup "parent_workflow" hint); [discriminate 2|].
  destruct (name =? "JSONSchemaHint") eqn:E1.
  { apply String.eqb_eq in E1. intros [= <-] H.
    bind_inv H. injection H as <-. pose proof Ha as Ha'.
    unfold JSONSchemaHint_init in Ha. bind_inv Ha. injection Ha as <-.
    auto. }
  destruct (name =? "RegoPolicyHint") eqn:E2.
  { apply String.eqb_eq in E2. intros [= <-] H.
    bind_inv H. injection H as <-. pose proof Ha as Ha'.
    unfold RegoPolicyHint_init in Ha. do 2 bind_inv Ha. injection Ha as <-.
    auto. }
  destruct (name =? "Cql2FilterHint") eqn:E3.
  { apply String.eqb_eq in E3. intros [= <-] H.
    bind_inv H. injection H as <-. pose proof Ha as Ha'.
    unfold Cql2FilterHint_init in Ha. bind_inv Ha. injection Ha as <-.
    auto. }
  destruct (name =? "Cql2Query").
  { intros [= <-] H. bind_inv H. discriminate. }
  destruct (module_level_name name); [|discriminate].
  intros [= <-]. destruct (accepts name hint); discriminate.
Qed.

Lemma resolve_hint_inv pw hint h :
  resolve pw hint = Ok (Some (OHint h)) ->
  exists c,
    lookup "class" hint = Some (VStr c) /\
    contains "eoap:" c = true /\
    last_segment ":" c = class_name h /\
    parent_workflow_of h = pw /\
    lookup "parent_workflow" hint = None /\
    match h with
    | JSONSchemaHint _ _ => JSONSchemaHint_init pw hint = Ok h
    | RegoPolicyHint _ _ _ => RegoPolicyHint_init pw hint = Ok h
    | Cql2FilterHint _ _ => Cql2FilterHint_init pw hint = Ok h
    end.
Proof.
  intros H. apply resolve_some_inv in H. destruct H as (c & g & Hc & Hm & Hg & Hcall).
  destruct (call_hint_inv _ _ _ Hg Hcall) as (Hn & Hp & Hpw & Hi).
  exists c. auto 7.
Qed.


(** The loop of [extract_assertion_hints] on raw hint records: it does
    not raise, and appends what each record resolves to. *)
Lemma extract_loop w hints acc :
  forallb raw_hint hints = true ->
  for_each (extract_step accepts w) hints acc
  = Ok (acc ++ resolved_of accepts w hints)%list.
Proof.
  revert acc; induction hints as [|v hints IH]; intros acc Hraw.
  - simpl. now rewrite app_nil_r.
  - simpl in Hraw. apply andb_true_iff in Hraw. destruct Hraw as [Hv Hraw].
    cbn [for_each resolved_of flat_map].
    fold (resolved_of accepts w hints).
    destruct v; simpl; try (rewrite IH by assumption; reflexivity).
    destruct (resolve_total (Some w) d Hv) as (r & Hr).
    rewrite Hr; simpl. destruct r as [o|]; simpl; rewrite IH by assumption.
    + now rewrite <- app_assoc.
    + reflexivity.
Qed.

Lemma extract_raw w hints :
  wf_hints w = Some hints ->
  forallb raw_hint hints = true ->
  extract_assertion_hints accepts w = Ok (resolved_of accepts w hints).
Proof.
  intros Hh Hraw. unfold extract_assertion_hints. rewrite Hh.
  destruct hints as [|v hints]; [reflexivity|].
  now rewrite extract_loop.
Qed.




(** *** Serialization and re-resolution *)

Lemma map_result_pyd_str field (qs : list string) :
  map_result (pyd_str field) (map VStr qs) = Ok qs.
Proof.
  induction qs as [|q qs IH]; simpl; [reflexivity|].
  now rewrite IH.
Qed.

Lemma Cql2Query_validate_validated v q :
  Cql2Query_validate v = Ok q -> validated_query q = true.
Proof.
  destruct v; try discriminate.
  unfold Cql2Query_validate, Cql2Query_init, required.
  destruct (lookup "id" d) as [vi|]; simpl; [|discriminate].
  destruct (pyd_str "id" vi); simpl; [|discriminate].
  destruct (lookup "cql2" d) as [vc|]; simpl; [|discriminate].
  destruct vc; simpl; try discriminate;
    (destruct (lookup "message" d) as [vm|]; simpl; [|discriminate]);
    (destruct (pyd_str "message" vm); simpl; [|discriminate]);
    intros [= <-]; reflexivity.
Qed.

Lemma map_result_validated l qs :
  map_result Cql2Query_validate l = Ok qs ->
  forallb validated_query qs = true.
Proof.
  revert qs; induction l as [|v l IH]; simpl; intros qs H.
  - injection H as <-. reflexivity.
  - destruct (Cql2Query_validate v) as [q|] eqn:Hq; simpl in H;
      [|discriminate].
    destruct (map_result Cql2Query_validate l) as [qs'|]; simpl in H;
      [|discriminate].
    injection H as <-. simpl.
    rewrite (Cql2Query_validate_validated _ Hq). now apply IH.
Qed.

Lemma ser_query_validate q :
  validated_query q = true -> Cql2Query_validate (ser_query q) = Ok q.
Proof.
  destruct q as [i c m]. unfold validated_query; simpl.
  destruct c; intros H; try discriminate; reflexivity.
Qed.

Lemma map_result_ser_query qs :
  forallb validated_query qs = true ->
  map_result Cql2Query_validate (map ser_query qs) = Ok qs.
Proof.
  induction qs as [|q qs IH]; [reflexivity|].
  cbn [map map_result forallb]. intros H.
  apply andb_true_iff in H. destruct H as [Hq Hqs].
  rewrite (ser_query_validate _ Hq). simpl. now rewrite IH.
Qed.


(** *** The claims on the resolver *)


(** C4 (amended).  The annotation of a resolved Hint is the constant
    fixed for its kind, the kind being the last segment of the [class]
    discriminator of its record; it is never that discriminator itself. *)
Theorem annotation_fixed_by_kind (pw : option Workflow) (hint : dict)
        (h : AssertionHint) :
  resolve pw hint = Ok (Some (OHint h)) ->
  exists c, lookup "class" hint = Some (VStr c) /\
            annotation_name_of (last_segment ":" c) = Some (annotation h) /\
            annotation h <> c.
Proof.
  intros H. apply resolve_hint_inv in H.
  destruct H as (c & Hc & Hm & Hn & _).
  exists c. split; [exact Hc|]. split.
  - rewrite Hn. destruct h; reflexivity.
  - intros E. rewrite <- E in Hm. destruct h; discriminate.
Qed.


(** C3 (amended).  A resolved policy or filter Hint serializes to a
    mapping without the [class] field, on which the resolver raises
    [KeyError]; with the discriminator of its class put back, the mapping
    resolves again, under the same workflow reference, to the same Hint. *)
Theorem serialized_hint_resolves_with_class
        (pw : option Workflow) (hint : dict) (h : AssertionHint) :
  resolve pw hint = Ok (Some (OHint h)) ->
  is_schema_hint h = false ->
  exists d, ser_model get_schema h = Ok d /\
            resolve pw d = Raise (KeyError "class") /\
            resolve pw (declaration_of h d) = Ok (Some (OHint h)).
Proof.
  intros H Hk. apply resolve_hint_inv in H.
  destruct H as (c & _ & _ & _ & Hp & _ & Hi).
  destruct h as [p js | p m qs | p qs]; [discriminate| |]; simpl in Hp; subst p.
  - eexists; split; [reflexivity|]. split; [reflexivity|].
    unfold declaration_of.
    rewrite (@resolve_class_string pw _ "eoap:RegoPolicyHint") by reflexivity.
    cbv -[map map_result pyd_str bind].
    unfold RegoPolicyHint_init, required. simpl.
    now rewrite map_result_pyd_str.
  - unfold Cql2FilterHint_init in Hi.
    destruct (required "queries" hint) as [v|]; simpl in Hi; [|discriminate].
    destruct v; simpl in Hi; try discriminate.
    destruct (map_result Cql2Query_validate l) as [qs'|] eqn:Hq; simpl in Hi;
      [|discriminate].
    injection Hi as <-. apply map_result_validated in Hq.
    eexists; split; [reflexivity|]. split; [reflexivity|].
    unfold declaration_of.
    rewrite (@resolve_class_string pw _ "eoap:Cql2FilterHint") by reflexivity.
    cbv -[map map_result Cql2Query_validate ser_query bind].
    unfold Cql2FilterHint_init, required. simpl.
    now rewrite map_result_ser_query.
Qed.

End Resolver.

(** *** The resolver on sample records *)

Import Sample.



Lemma annotation_fixed_by_kind_witness :
  exists c, lookup "class" schema_record = Some (VStr c) /\
            annotation_name_of (last_segment ":" c)
            = Some "eoap.ogc.org/inputs-json-schema" /\
            "eoap.ogc.org/inputs-json-schema" <> c.
Proof.
  exact (annotation_fixed_by_kind no_other_global None schema_record
           (h := JSONSchemaHint None [("type", VStr "object")]) eq_refl).
Defined.

(** C4 as stated fails: the schema record is looked up under
    [eoap:JSONSchemaHint] and its Hint's annotation is another string. *)
Lemma annotation_is_not_the_discriminator :
  let h := JSONSchemaHint None [("type", VStr "object")] in
  lookup "class" schema_record = Some (VStr "eoap:JSONSchemaHint") /\
  _get_assertion_hint_by_name no_other_global None schema_record
  = Ok (Some (OHint h)) /\
  annotation h = "eoap.ogc.org/inputs-json-schema" /\
  annotation h <> "eoap:JSONSchemaHint".
Proof. repeat split. discriminate. Qed.


Lemma serialized_hint_resolves_with_class_witness :
  let h := RegoPolicyHint None "package workflow" ["data.workflow.deny[_]"] in
  exists d, ser_model no_schema h = Ok d /\
            _get_assertion_hint_by_name no_other_global None d
            = Raise (KeyError "class") /\
            _get_assertion_hint_by_name no_other_global None
              (declaration_of h d) = Ok (Some (OHint h)).
Proof.
  exact (serialized_hint_resolves_with_class no_other_global no_schema
           None policy_record
           (h := RegoPolicyHint None "package workflow"
                                ["data.workflow.deny[_]"])
           eq_refl eq_refl).
Defined.

(** C3 as stated fails: the policy Hint and the inline schema Hint below
    are resolved without a workflow reference, and the resolver raises
    [KeyError] on what they serialize to; the schema Hint serializes to
    its bare schema, which even under its discriminator resolves to a Hint
    with the empty default schema. *)
Lemma serialized_hint_does_not_resolve :
  let p := RegoPolicyHint None "package workflow" ["data.workflow.deny[_]"] in
  let s := JSONSchemaHint None [("type", VStr "object")] in
  (_get_assertion_hint_by_name no_other_global None policy_record
   = Ok (Some (OHint p)) /\
   ser_model no_schema p
   = Ok [("queries", VList [VStr "data.workflow.deny[_]"]);
         ("module", VStr "package workflow")] /\
   _get_assertion_hint_by_name no_other_global None
     [("queries", VList [VStr "data.workflow.deny[_]"]);
      ("module", VStr "package workflow")]
   = Raise (KeyError "class"))
  /\ (_get_assertion_hint_by_name no_other_global None schema_record
      = Ok (Some (OHint s)) /\
      ser_model no_schema s = Ok [("type", VStr "object")] /\
      _get_assertion_hint_by_name no_other_global None
        [("type", VStr "object")] = Raise (KeyError "class") /\
      _get_assertion_hint_by_name no_other_global None
        (declaration_of s [("type", VStr "object")])
      = Ok (Some (OHint (JSONSchemaHint None [])))).
Proof. vm_compute. repeat split. Qed.

End ResolverFacts.

(** ** Reports *)

Module ReportFacts.
Import Spec.

Lemma ErrorDetail_init_fits pointer detail :
  (String.length pointer <=? 1024)%nat = true ->
  (String.length detail <=? 4096)%nat = true ->
  ErrorDetail_init (VStr pointer) (VStr detail) = Ok (entry (pointer, detail)).
Proof.
  intros Hp Hd. unfold ErrorDetail_init, constr. rewrite Hd. simpl.
  rewrite Hp. reflexivity.
Qed.

(** An entry built with a string pointer keeps that pointer. *)
Lemma ErrorDetail_init_pointer pointer detail ed :
  ErrorDetail_init (VStr pointer) detail = Ok ed ->
  ed_pointer ed = Some pointer.
Proof.
  unfold ErrorDetail_init. intros H.
  destruct (constr 4096 "detail" detail); simpl in H; [|discriminate].
  unfold constr in H.
  destruct (String.length pointer <=? 1024)%nat; simpl in H; [|discriminate].
  now injection H as <-.
Qed.

Lemma BusinessRuleViolation_inv errors r :
  BusinessRuleViolation errors = Ok r ->
  errors <> [] -> report errors = Some r.
Proof.
  unfold BusinessRuleViolation.
  destruct (List.length errors <=? 1000)%nat; [|discriminate].
  intros [= <-] Hne. destruct errors; [contradiction|reflexivity].
Qed.

Lemma finish_fits errors :
  (List.length errors <=? 1000)%nat = true ->
  match errors with
  | _ :: _ => pd <- BusinessRuleViolation errors ;; Ok (Some pd)
  | [] => Ok None
  end = Ok (report errors).
Proof.
  intros H. destruct errors as [|e errors]; [reflexivity|].
  unfold BusinessRuleViolation. rewrite H. reflexivity.
Qed.

Lemma report_some_business_rule_violation errors r :
  report errors = Some r -> business_rule_violation r.
Proof.
  destruct errors as [|e errors]; [discriminate|].
  intros [= <-]. repeat split. exists (e :: errors). split; [reflexivity|].
  discriminate.
Qed.

Lemma report_some_errors errors r :
  report errors = Some r -> pd_errors r = Some errors.
Proof.
  destruct errors as [|e errors]; [discriminate|]. now intros [= <-].
Qed.

(** The last two lines of both [validate_inputs]. *)
Lemma finish_some_inv errors r :
  match errors with
  | _ :: _ => pd <- BusinessRuleViolation errors ;; Ok (Some pd)
  | [] => Ok None
  end = Ok (Some r) ->
  report errors = Some r.
Proof.
  destruct errors as [|e errors]; [discriminate|]. intros H.
  destruct (BusinessRuleViolation (e :: errors)) as [pd|] eqn:Hb;
    simpl in H; [|discriminate].
  injection H as <-. apply BusinessRuleViolation_inv; [exact Hb|discriminate].
Qed.

End ReportFacts.

(** ** The filter validator *)

Module FilterFacts.
Import Hints Spec ReportFacts.

Section Engine.

Variable Ast : Type.
Variable parse_cql2_text : string -> result Ast.
Variable parse_cql2_json : dict -> result Ast.
Variable evaluate : Ast -> value -> result bool.

Local Abbreviation parse_filter :=
  (Cql2.parse_filter parse_cql2_text parse_cql2_json).
Local Abbreviation check_filter :=
  (Cql2.check_filter parse_cql2_text parse_cql2_json evaluate).
Local Abbreviation validate_inputs :=
  (Cql2.validate_inputs parse_cql2_text parse_cql2_json evaluate).
Local Abbreviation parse_query :=
  (Spec.parse_query parse_cql2_text parse_cql2_json).
Local Abbreviation parse_fails :=
  (Spec.parse_fails parse_cql2_text parse_cql2_json).
Local Abbreviation filter_finding :=
  (Spec.filter_finding parse_cql2_text parse_cql2_json evaluate).
Local Abbreviation filter_findings :=
  (Spec.filter_findings parse_cql2_text parse_cql2_json evaluate).
Local Abbreviation evaluation_returns :=
  (Spec.evaluation_returns parse_cql2_text parse_cql2_json evaluate).
Local Abbreviation predicate_is :=
  (Spec.predicate_is parse_cql2_text parse_cql2_json evaluate).

(** The parsing half of the loop body, by the outcome of the parse. *)
Lemma parse_filter_spec errs q :
  parse_filter errs q =
  match parse_query q with
  | inr ast => Ok (Some ast, errs)
  | inl error =>
      ed <- ErrorDetail_init (VStr (q_id q)) (VStr error) ;;
      Ok (None, (errs ++ [ed])%list)
  end.
Proof.
  unfold Cql2.parse_filter, Spec.parse_query.
  destruct (q_cql2 q); try reflexivity.
  - destruct (parse_cql2_text s); reflexivity.
  - destruct (parse_cql2_json d); reflexivity.
Qed.

(** The loop body, by the outcome of the parse and of the predicate. *)
Lemma check_filter_spec data errs q :
  check_filter data errs q =
  match parse_query q with
  | inr ast =>
      holds <- evaluate ast data ;;
      if holds then Ok errs
      else ed <- ErrorDetail_init (VStr (q_id q)) (VStr (q_message q)) ;;
           Ok (errs ++ [ed])%list
  | inl error =>
      ed <- ErrorDetail_init (VStr (q_id q)) (VStr error) ;;
      Ok (errs ++ [ed])%list
  end.
Proof.
  unfold Cql2.check_filter. rewrite parse_filter_spec.
  destruct (parse_query q) as [error|ast]; simpl.
  - destruct (ErrorDetail_init (VStr (q_id q)) (VStr error)); reflexivity.
  - destruct (evaluate ast data) as [[]|]; reflexivity.
Qed.

(** One turn of the loop appends the finding of its query. *)
Lemma check_filter_finding data errs q :
  evaluation_returns data q = true ->
  fits_limits (filter_finding data q) = true ->
  check_filter data errs q
  = Ok (errs ++ map entry (filter_finding data q))%list.
Proof.
  rewrite check_filter_spec.
  unfold Spec.evaluation_returns, Spec.filter_finding, fits_limits.
  destruct (parse_query q) as [error|ast]; simpl.
  - intros _ H. rewrite !andb_true_r in H.
    apply andb_true_iff in H. destruct H as [Hp Hd].
    now rewrite (ErrorDetail_init_fits _ _ Hp Hd).
  - destruct (evaluate ast data) as [[]|]; simpl; try discriminate.
    + intros _ _. now rewrite app_nil_r.
    + intros _ H. rewrite !andb_true_r in H.
      apply andb_true_iff in H. destruct H as [Hp Hd].
      now rewrite (ErrorDetail_init_fits _ _ Hp Hd).
Qed.

Lemma loop_findings data queries errs :
  forallb (evaluation_returns data) queries = true ->
  forallb (fun f => (String.length (fst f) <=? 1024)%nat
                    && (String.length (snd f) <=? 4096)%nat)
          (filter_findings data queries) = true ->
  for_each (check_filter data) queries errs
  = Ok (errs ++ map entry (filter_findings data queries))%list.
Proof.
  revert errs; induction queries as [|q queries IH]; intros errs Hret Hfit.
  - simpl. now rewrite app_nil_r.
  - cbn [forallb] in Hret. apply andb_true_iff in Hret.
    destruct Hret as [Hq Hret].
    unfold Spec.filter_findings in Hfit. cbn [flat_map] in Hfit.
    rewrite forallb_app in Hfit. apply andb_true_iff in Hfit.
    destruct Hfit as [Hfq Hfit].
    cbn [for_each]. rewrite (check_filter_finding data errs q Hq).
    + simpl. rewrite IH by assumption.
      unfold Spec.filter_findings. cbn [flat_map].
      now rewrite map_app, app_assoc.
    + unfold fits_limits. rewrite Hfq. simpl.
      unfold Spec.filter_finding.
      destruct (parse_query q); [reflexivity|].
      destruct (evaluate a data) as [[]|]; reflexivity.
Qed.

(** What one turn of the loop can append: nothing or one entry, pointing
    at the query. *)
Lemma check_filter_appends data errs q errs' :
  check_filter data errs q = Ok errs' ->
  exists new, errs' = (errs ++ new)%list /\ (List.length new <= 1)%nat /\
              Forall (fun e => ed_pointer e = Some (q_id q)) new /\
              (parse_fails q = false -> new <> [] ->
               predicate_is false data q).
Proof.
  rewrite check_filter_spec. unfold Spec.parse_fails, Spec.predicate_is.
  destruct (parse_query q) as [error|ast] eqn:Hparse.
  - intros H.
    destruct (ErrorDetail_init (VStr (q_id q)) (VStr error)) as [ed|] eqn:He;
      simpl in H; [|discriminate].
    injection H as <-. exists [ed]. repeat split; simpl; auto.
    + constructor; [|constructor].
      eapply ErrorDetail_init_pointer; eauto.
    + discriminate.
  - intros H.
    destruct (evaluate ast data) as [[]|] eqn:Hev; simpl in H;
      [| |discriminate].
    + injection H as <-. exists []. rewrite app_nil_r.
      repeat split; simpl; auto. intros _ Hne. now contradiction Hne.
    + destruct (ErrorDetail_init (VStr (q_id q)) (VStr (q_message q)))
        as [ed|] eqn:He; simpl in H; [|discriminate].
      injection H as <-. exists [ed]. repeat split; simpl; auto.
      * constructor; [|constructor].
        eapply ErrorDetail_init_pointer; eauto.
      * intros _ _. eauto.
Qed.

Lemma loop_appends data queries errs errs' :
  for_each (check_filter data) queries errs = Ok errs' ->
  exists new, errs' = (errs ++ new)%list /\
              (List.length new <= List.length queries)%nat /\
              Forall (fun e => exists q, In q queries /\
                                         ed_pointer e = Some (q_id q)) new.
Proof.
  revert errs errs'; induction queries as [|q queries IH]; intros errs errs' H.
  - simpl in H. injection H as <-. exists []. rewrite app_nil_r.
    repeat split; auto.
  - cbn [for_each] in H. apply bind_ok_inv in H.
    destruct H as (mid & Hq & H).
    apply check_filter_appends in Hq.
    destruct Hq as (new1 & -> & Hl1 & Hp1 & _).
    apply IH in H. destruct H as (new2 & -> & Hl2 & Hp2).
    exists (new1 ++ new2)%list. rewrite app_assoc.
    split; [reflexivity|]. split.
    + rewrite length_app. simpl. lia.
    + apply Forall_app. split.
      * eapply Forall_impl; [|exact Hp1]. intros e He. exists q.
        split; [now left|exact He].
      * eapply Forall_impl; [|exact Hp2]. intros e (q' & Hin & He).
        exists q'. split; [now right|exact He].
Qed.


Lemma filter_validate_inputs_findings v data :
  forallb (evaluation_returns data) (Cql2.queries v) = true ->
  fits_limits (filter_findings data (Cql2.queries v)) = true ->
  validate_inputs v data
  = Ok (report (map entry (filter_findings data (Cql2.queries v)))).
Proof.
  intros Hret Hfit. unfold fits_limits in Hfit.
  apply andb_true_iff in Hfit. destruct Hfit as [Hfit Hlen].
  unfold Cql2.validate_inputs.
  rewrite (loop_findings data (Cql2.queries v) [] Hret Hfit). simpl.
  apply finish_fits. now rewrite length_map.
Qed.

Lemma filter_findings_split data pre q post :
  filter_findings data (pre ++ q :: post)
  = (filter_findings data pre ++ filter_finding data q
       ++ filter_findings data post)%list.
Proof.
  unfold Spec.filter_findings. rewrite flat_map_app. reflexivity.
Qed.

Lemma predicate_true_no_finding data queries :
  Forall (predicate_is true data) queries ->
  forallb (evaluation_returns data) queries = true /\
  filter_findings data queries = [].
Proof.
  induction 1 as [|q queries (ast & Hp & He) _ [IH1 IH2]]; [split; reflexivity|].
  unfold Spec.filter_findings in *. cbn [forallb flat_map].
  unfold Spec.evaluation_returns at 1, Spec.filter_finding at 1.
  rewrite Hp, He. simpl. auto.
Qed.

(** C6 (amended).  When no predicate evaluation raises and the entries to
    report fit the limits of the Error Detail model, the filter validator
    returns the report of the findings of its queries, query by query in
    order: a query that does not parse yields the entry with its id and the
    parse error, whatever the other queries do; a query that parses and
    whose predicate is false yields the entry with its id and its message;
    and when every predicate is true the validator returns none. *)
Theorem filter_validator_report (v : Cql2.Cql2Validator) (data : value) :
  forallb (evaluation_returns data) (Cql2.queries v) = true ->
  fits_limits (filter_findings data (Cql2.queries v)) = true ->
  validate_inputs v data
  = Ok (report (map entry (filter_findings data (Cql2.queries v))))
  /\ (forall pre q post error,
         Cql2.queries v = (pre ++ q :: post)%list ->
         parse_query q = inl error ->
         exists r, validate_inputs v data = Ok (Some r) /\
                   pd_errors r
                   = Some (map entry (filter_findings data pre)
                             ++ entry (q_id q, error)
                             :: map entry (filter_findings data post))%list)
  /\ (forall pre q post,
         Cql2.queries v = (pre ++ q :: post)%list ->
         predicate_is false data q ->
         exists r, validate_inputs v data = Ok (Some r) /\
                   pd_errors r
                   = Some (map entry (filter_findings data pre)
                             ++ entry (q_id q, q_message q)
                             :: map entry (filter_findings data post))%list)
  /\ (Forall (predicate_is true data) (Cql2.queries v) ->
      validate_inputs v data = Ok None).
Proof.
  intros Hret Hfit.
  pose proof (filter_validate_inputs_findings v data Hret Hfit) as Hv.
  assert (Hsplit : forall pre q post f,
             Cql2.queries v = (pre ++ q :: post)%list ->
             filter_finding data q = [f] ->
             exists r, validate_inputs v data = Ok (Some r) /\
                       pd_errors r
                       = Some (map entry (filter_findings data pre)
                                 ++ entry f
                                 :: map entry (filter_findings data post))%list).
  { intros pre q post f Hq Hf. rewrite Hv, Hq, filter_findings_split, Hf.
    rewrite !map_app. cbn [map app].
    destruct (map entry (filter_findings data pre)); simpl; eauto. }
  split; [exact Hv|]. split; [|split].
  - intros pre q post error Hq Hp. apply (Hsplit pre q post); [exact Hq|].
    unfold Spec.filter_finding. now rewrite Hp.
  - intros pre q post Hq (ast & Hp & He). apply (Hsplit pre q post); [exact Hq|].
    unfold Spec.filter_finding. now rewrite Hp, He.
  - intros Hall. apply predicate_true_no_finding in Hall.
    destruct Hall as [_ Hnone]. now rewrite Hv, Hnone.
Qed.

(** C10.  A query whose expression does not parse, or has an unrecognized
    format, is not evaluated: its turn of the loop is the same whatever the
    evaluator; every turn appends at most one entry, pointing at its query,
    and a query that parses appends one only when its predicate is false;
    so a returned report holds at most as many entries as there are
    queries, each pointing at the id of one of them. *)
Theorem filter_query_contributes_at_most_once
        (v : Cql2.Cql2Validator) (data : value) :
  (forall q errs (evaluate' : Ast -> value -> result bool),
      parse_fails q = true ->
      Cql2.check_filter parse_cql2_text parse_cql2_json evaluate' data errs q
      = check_filter data errs q)
  /\ (forall q errs errs',
         check_filter data errs q = Ok errs' ->
         exists new, errs' = (errs ++ new)%list /\
                     (List.length new <= 1)%nat /\
                     Forall (fun e => ed_pointer e = Some (q_id q)) new /\
                     (parse_fails q = false -> new <> [] ->
                      predicate_is false data q))
  /\ (forall r,
         validate_inputs v data = Ok (Some r) ->
         exists errors,
           pd_errors r = Some errors /\
           (List.length errors <= List.length (Cql2.queries v))%nat /\
           Forall (fun e => exists q, In q (Cql2.queries v) /\
                                      ed_pointer e = Some (q_id q)) errors).
Proof.
  split; [|split].
  - intros q errs evaluate' Hf. unfold Cql2.check_filter.
    rewrite parse_filter_spec. unfold Spec.parse_fails in Hf.
    destruct (parse_query q) as [error|ast]; [|discriminate]. simpl.
    destruct (ErrorDetail_init (VStr (q_id q)) (VStr error)); reflexivity.
  - intros q errs errs'. apply check_filter_appends.
  - intros r H. unfold Cql2.validate_inputs in H. apply bind_ok_inv in H.
    destruct H as (errors & Hloop & H).
    apply finish_some_inv, report_some_errors in H.
    apply loop_appends in Hloop. destruct Hloop as (new & -> & Hlen & Hp).
    exists new. auto.
Qed.

End Engine.

Import Sample.

Lemma filter_validator_report_witness :
  let data := VDict [] in
  Cql2.validate_inputs parse_text parse_json eval filter_validator data
  = Ok (report [entry ("bad", Cql2.text_error (EngineError "unexpected token"));
                entry ("area", "out of area")])
  /\ (exists r,
         Cql2.validate_inputs parse_text parse_json eval filter_validator data
         = Ok (Some r) /\
         pd_errors r
         = Some [entry ("bad",
                        Cql2.text_error (EngineError "unexpected token"));
                 entry ("area", "out of area")])
  /\ (exists r,
         Cql2.validate_inputs parse_text parse_json eval filter_validator data
         = Ok (Some r) /\
         pd_errors r
         = Some [entry ("bad",
                        Cql2.text_error (EngineError "unexpected token"));
                 entry ("area", "out of area")])
  /\ Cql2.validate_inputs parse_text parse_json eval
       {| Cql2.queries := [q_true] |} data = Ok None.
Proof.
  pose proof (filter_validator_report parse_text parse_json eval
                filter_validator (VDict []) eq_refl eq_refl) as (H1 & H2 & H3 & _).
  pose proof (filter_validator_report parse_text parse_json eval
                {| Cql2.queries := [q_true] |} (VDict []) eq_refl eq_refl)
    as (_ & _ & _ & H4).
  split; [exact H1|]. split; [|split].
  - exact (H2 [] q_bad [q_false; q_true] _ eq_refl eq_refl).
  - exact (H3 [q_bad] q_false [q_true] eq_refl
              (ex_intro _ A_false (conj eq_refl eq_refl))).
  - apply H4. constructor; [|constructor].
    exists A_true. split; reflexivity.
Defined.

(** C6 as stated fails: the query below does not parse, and the validator
    raises on its id of 1025 characters instead of reporting it; and the
    parse failure of a query is not reported when the evaluation of
    another one raises. *)
Lemma filter_validator_raises_instead_of_reporting :
  (Spec.parse_fails parse_text parse_json q_long_id = true /\
   Cql2.validate_inputs parse_text parse_json eval
     {| Cql2.queries := [q_long_id] |} (VDict [])
   = Raise (ValidationError "pointer: string too long"))
  /\ (Spec.parse_fails parse_text parse_json q_bad = true /\
      Cql2.validate_inputs parse_text parse_json eval
        {| Cql2.queries := [q_bad; q_crash] |} (VDict [])
      = Raise (KeyError "missing")).
Proof. vm_compute. repeat split. Qed.

Lemma filter_query_contributes_at_most_once_witness :
  Cql2.check_filter parse_text parse_json (fun _ _ => Ok false) (VDict [])
                    [] q_bad
  = Cql2.check_filter parse_text parse_json eval (VDict []) [] q_bad
  /\ (exists new,
         [entry ("area", "out of area")] = ([] ++ new)%list /\
         (List.length new <= 1)%nat /\
         Forall (fun e => ed_pointer e = Some "area") new /\
         (Spec.parse_fails parse_text parse_json q_false = false ->
          new <> [] ->
          Spec.predicate_is parse_text parse_json eval false (VDict [])
                            q_false))
  /\ (exists errors,
         pd_errors
           {| pd_type := Some business_rule_violation_type;
              pd_status := Some business_rule_violation_status;
              pd_title := Some business_rule_violation_title;
              pd_detail := business_rule_violation_detail;
              pd_instance := None; pd_code := None;
              pd_errors :=
                Some [entry ("bad", Cql2.text_error
                                      (EngineError "unexpected token"));
                      entry ("area", "out of area")] |} = Some errors /\
         (List.length errors <= 3)%nat /\
         Forall (fun e => exists q, In q [q_bad; q_false; q_true] /\
                                    ed_pointer e = Some (q_id q)) errors).
Proof.
  pose proof (filter_query_contributes_at_most_once parse_text parse_json eval
                filter_validator (VDict [])) as (H1 & H2 & H3).
  split; [|split].
  - exact (H1 q_bad [] (fun _ _ => Ok false) eq_refl).
  - exact (H2 q_false [] _ eq_refl).
  - exact (H3 _ eq_refl).
Defined.

End FilterFacts.

(** ** The policy validator *)

Module PolicyFacts.
Import Spec ReportFacts.

Section Engine.

Variable rego_query : Rego.Interpreter -> string -> result (list (list value)).

Local Abbreviation check_result := Rego.check_result.
Local Abbreviation check_query := (Rego.check_query rego_query).
Local Abbreviation validate_inputs := (Rego.validate_inputs rego_query).
Local Abbreviation policy_findings := (Spec.policy_findings rego_query).
Local Abbreviation queries_return := (Spec.queries_return rego_query).

(** The findings whose values are strings within the limits. *)
Lemma text_finding_entry (f : string * value) :
  is_text (snd f) = true ->
  (String.length (fst f) <=? 1024)%nat = true ->
  (String.length (text_of (snd f)) <=? 4096)%nat = true ->
  ErrorDetail_init (VStr (fst f)) (snd f)
  = Ok (entry (fst f, text_of (snd f))).
Proof.
  destruct f as [p [ | | |s| | | ]]; simpl; try discriminate.
  intros _ Hp Hd. now apply ErrorDetail_init_fits.
Qed.

Lemma rows_findings query rows errs :
  forallb (fun f => is_text (snd f) &&
                    ((String.length (fst f) <=? 1024)%nat
                     && (String.length (text_of (snd f)) <=? 4096)%nat))
          (flat_map (row_finding query) rows) = true ->
  for_each (check_result query) rows errs
  = Ok (errs ++ map entry (text_findings (flat_map (row_finding query) rows)))%list.
Proof.
  revert errs; induction rows as [|exprs rows IH]; intros errs H.
  - simpl. now rewrite app_nil_r.
  - cbn [flat_map] in H. rewrite forallb_app in H.
    apply andb_true_iff in H. destruct H as [Hrow H].
    cbn [for_each flat_map]. unfold text_findings. rewrite map_app, map_app.
    fold (text_findings (flat_map (row_finding query) rows)).
    destruct exprs as [|first rest].
    + simpl. now apply IH.
    + simpl in Hrow. rewrite andb_true_r in Hrow.
      apply andb_true_iff in Hrow. destruct Hrow as [Ht Hl].
      apply andb_true_iff in Hl. destruct Hl as [Hp Hd].
      pose proof (text_finding_entry (query, first) Ht Hp Hd) as He.
      cbn [fst snd] in He.
      cbn [Rego.check_result row_finding map fst snd app]. rewrite He.
      cbn [bind]. rewrite IH by assumption. now rewrite <- app_assoc.
Qed.

Lemma queries_findings rego queries errs :
  queries_return rego queries = true ->
  forallb (fun f => is_text (snd f) &&
                    ((String.length (fst f) <=? 1024)%nat
                     && (String.length (text_of (snd f)) <=? 4096)%nat))
          (policy_findings rego queries) = true ->
  for_each (check_query rego) queries errs
  = Ok (errs ++ map entry (text_findings (policy_findings rego queries)))%list.
Proof.
  revert errs; induction queries as [|q queries IH]; intros errs Hret H.
  - simpl. now rewrite app_nil_r.
  - unfold Spec.queries_return in Hret. cbn [forallb] in Hret.
    apply andb_true_iff in Hret. destruct Hret as [Hq Hret].
    unfold Spec.policy_findings in H. cbn [flat_map] in H.
    rewrite forallb_app in H. apply andb_true_iff in H.
    destruct H as [Hrows H].
    cbn [for_each]. unfold Rego.check_query at 1.
    unfold Spec.policy_findings. cbn [flat_map].
    unfold query_rows at 1. unfold query_rows at 1 in Hrows.
    destruct (rego_query rego q) as [rows|]; [|discriminate]. simpl.
    rewrite (rows_findings q rows errs Hrows). simpl.
    rewrite IH by assumption.
    unfold text_findings. rewrite !map_app. now rewrite <- app_assoc.
Qed.

Lemma forallb_and {A} (f g : A -> bool) (l : list A) :
  forallb f l = true -> forallb g l = true ->
  forallb (fun x => f x && g x) l = true.
Proof.
  induction l as [|x l IH]; simpl; [reflexivity|].
  intros Hf Hg. apply andb_true_iff in Hf. apply andb_true_iff in Hg.
  destruct Hf as [-> Hf], Hg as [-> Hg]. simpl. auto.
Qed.

Lemma forallb_on_map {A B} (f : B -> bool) (g : A -> B) (l : list A) :
  forallb f (map g l) = forallb (fun x => f (g x)) l.
Proof.
  induction l as [|x l IH]; simpl; [reflexivity|]. now rewrite IH.
Qed.

Lemma policy_validate_inputs_findings v data :
  let rego' := Rego.set_input (Rego.rego v) data in
  queries_return rego' (Rego.queries v) = true ->
  forallb (fun f => is_text (snd f))
          (policy_findings rego' (Rego.queries v)) = true ->
  fits_limits (text_findings (policy_findings rego' (Rego.queries v))) = true ->
  snd (validate_inputs v data)
  = Ok (report (map entry (text_findings
                             (policy_findings rego' (Rego.queries v))))).
Proof.
  intros rego' Hret Htext Hfit. unfold fits_limits in Hfit.
  apply andb_true_iff in Hfit. destruct Hfit as [Hfit Hlen].
  unfold Rego.validate_inputs, snd. cbn [Rego.rego Rego.queries].
  fold rego'.
  rewrite (queries_findings rego' (Rego.queries v) []); [| exact Hret |].
  - simpl. apply finish_fits. now rewrite length_map.
  - apply forallb_and; [exact Htext|].
    unfold text_findings in Hfit. rewrite forallb_on_map in Hfit. exact Hfit.
Qed.


Lemma policy_findings_split rego pre q post :
  policy_findings rego (pre ++ q :: post)
  = (policy_findings rego pre
       ++ flat_map (row_finding q) (query_rows rego_query rego q)
       ++ policy_findings rego post)%list.
Proof.
  unfold Spec.policy_findings. rewrite flat_map_app. reflexivity.
Qed.

(** C7 (amended).  The policy validator sets the input mapping as the
    input of its interpreter and evaluates its queries on it.  When every
    query evaluation returns and the first expression values are strings
    within the limits of the Error Detail model, it returns the report
    with one entry for every result row that has an expression, in order,
    pointing at the query string and detailing the first expression value;
    a query without result rows contributes nothing, and without any such
    row the validator returns none. *)
Theorem policy_validator_report (v : Rego.RegoValidator) (data : value) :
  let rego' := Rego.set_input (Rego.rego v) data in
  (Rego.input (Rego.rego (fst (validate_inputs v data))) = Some data /\
   Rego.rego (fst (validate_inputs v data)) = rego')
  /\ (queries_return rego' (Rego.queries v) = true ->
      forallb (fun f => is_text (snd f))
              (policy_findings rego' (Rego.queries v)) = true ->
      fits_limits (text_findings (policy_findings rego' (Rego.queries v)))
      = true ->
      snd (validate_inputs v data)
      = Ok (report (map entry (text_findings
                                 (policy_findings rego' (Rego.queries v))))))
  /\ (forall q s rest,
         Rego.queries v = [q] ->
         rego_query rego' q = Ok [VStr s :: rest] ->
         (String.length q <= 1024)%nat -> (String.length s <= 4096)%nat ->
         snd (validate_inputs v data) = Ok (report [entry (q, s)]))
  /\ (forall pre q post,
         Rego.queries v = (pre ++ q :: post)%list ->
         rego_query rego' q = Ok [] ->
         policy_findings rego' (Rego.queries v)
         = (policy_findings rego' pre ++ policy_findings rego' post)%list)
  /\ (queries_return rego' (Rego.queries v) = true ->
      policy_findings rego' (Rego.queries v) = [] ->
      snd (validate_inputs v data) = Ok None).
Proof.
  intros rego'. split; [split; reflexivity|]. split; [|split; [|split]].
  - apply policy_validate_inputs_findings.
  - intros q s rest Hq Hrows Hlq Hls.
    assert (Hf : policy_findings rego' (Rego.queries v) = [(q, VStr s)]).
    { rewrite Hq. unfold Spec.policy_findings, query_rows. simpl.
      fold rego'. now rewrite Hrows. }
    rewrite policy_validate_inputs_findings; fold rego'.
    + now rewrite Hf.
    + rewrite Hq. unfold Spec.queries_return. simpl. now rewrite Hrows.
    + now rewrite Hf.
    + rewrite Hf. unfold fits_limits. simpl.
      apply Nat.leb_le in Hlq, Hls. now rewrite Hlq, Hls.
  - intros pre q post Hq Hrows. rewrite Hq, policy_findings_split.
    unfold query_rows. now rewrite Hrows.
  - intros Hret Hnone.
    rewrite policy_validate_inputs_findings; fold rego'; try assumption;
      now rewrite Hnone.
Qed.

End Engine.

Import Sample.

Lemma policy_validator_report_witness :
  let data := VDict [("message", VStr "too big")] in
  snd (Rego.validate_inputs query (policy_validator sample_queries) data)
  = Ok (report [entry ("data.workflow.deny[_]", "denied");
                entry ("input.message", "too big")])
  /\ snd (Rego.validate_inputs query
            (policy_validator ["data.workflow.deny[_]"]) data)
     = Ok (report [entry ("data.workflow.deny[_]", "denied")])
  /\ Spec.policy_findings query
       (Rego.set_input (Rego.rego (policy_validator sample_queries)) data)
       sample_queries
     = [("data.workflow.deny[_]", VStr "denied");
        ("input.message", VStr "too big")]
  /\ snd (Rego.validate_inputs query
            (policy_validator ["data.workflow.none"; "data.workflow.blank"])
            data)
     = Ok None.
Proof.
  split; [|split; [|split]].
  - exact (proj1 (proj2 (policy_validator_report query
                           (policy_validator sample_queries)
                           (VDict [("message", VStr "too big")])))
                 eq_refl eq_refl eq_refl).
  - refine (proj1 (proj2 (proj2 (policy_validator_report query
                           (policy_validator ["data.workflow.deny[_]"])
                           (VDict [("message", VStr "too big")]))))
                  "data.workflow.deny[_]" "denied" [] eq_refl eq_refl _ _);
      simpl; lia.
  - exact (proj1 (proj2 (proj2 (proj2 (policy_validator_report query
                           (policy_validator sample_queries)
                           (VDict [("message", VStr "too big")])))))
                 [] "data.workflow.none"
                 ["data.workflow.deny[_]"; "data.workflow.blank";
                  "input.message"] eq_refl eq_refl).
  - exact (proj2 (proj2 (proj2 (proj2 (policy_validator_report query
                           (policy_validator ["data.workflow.none";
                                              "data.workflow.blank"])
                           (VDict [("message", VStr "too big")])))))
                 eq_refl eq_refl).
Defined.

(** C7 as stated fails: the query below has one result row, whose only
    expression is the boolean [True], and the validator raises instead of
    reporting it. *)
Lemma policy_validator_raises_on_non_string_expression :
  query (Rego.set_input (Rego.rego (policy_validator ["data.workflow.allow"]))
                        (VDict []))
        "data.workflow.allow" = Ok [[VBool true]] /\
  snd (Rego.validate_inputs query (policy_validator ["data.workflow.allow"])
                            (VDict []))
  = Raise (ValidationError "detail: string expected").
Proof. split; reflexivity. Qed.

End PolicyFacts.

(** ** Validators and the orchestrator *)

Module CliFacts.
Import Hints Spec ReportFacts.

Section Orchestrator.

Variable Ast : Type.
Variable parse_cql2_text : string -> result Ast.
Variable parse_cql2_json : dict -> result Ast.
Variable evaluate : Ast -> value -> result bool.
Variable compile_module : string -> result unit.
Variable rego_query : Rego.Interpreter -> string -> result (list (list value)).
Variable get_inputs_json_schema : Workflow -> result dict.
Variable other_global_accepts : string -> dict -> bool.
Variable JSONSchemaValidator_init : dict -> result unit.
Variable JSONSchemaValidator_validate_inputs :
  dict -> value -> result (option ProblemDetails).

Local Abbreviation invoke :=
  (Cli.invoke parse_cql2_text parse_cql2_json evaluate rego_query
              JSONSchemaValidator_validate_inputs).
Local Abbreviation validate_inputs :=
  (Cli.validate_inputs parse_cql2_text parse_cql2_json evaluate rego_query
                       JSONSchemaValidator_validate_inputs).
Local Abbreviation run :=
  (Cli.run parse_cql2_text parse_cql2_json evaluate rego_query
           JSONSchemaValidator_validate_inputs).

(** C8.  A report returned by a filter or a policy validator is of the
    business-rule-violation kind: its type, its status 422 and its title
    are the constants of that kind, and its list of errors is present and
    not empty. *)
Theorem returned_report_is_business_rule_violation
        (v : Cli.Validator) (data : value) (r : ProblemDetails) :
  filter_or_policy v = true ->
  validate_inputs v data = Ok (Some r) ->
  business_rule_violation r.
Proof.
  intros Hk H. unfold Cli.validate_inputs, Cli.invoke in H.
  destruct v as [schema | p | f]; [discriminate| |].
  - destruct (Rego.validate_inputs rego_query p data) as [p' outcome] eqn:Hv.
    simpl in H. subst outcome.
    unfold Rego.validate_inputs in Hv. injection Hv as _ Hv.
    apply bind_ok_inv in Hv. destruct Hv as (errors & _ & Hv).
    eapply report_some_business_rule_violation, finish_some_inv, Hv.
  - simpl in H. unfold Cql2.validate_inputs in H.
    apply bind_ok_inv in H. destruct H as (errors & _ & H).
    eapply report_some_business_rule_violation, finish_some_inv, H.
Qed.

(** Setting the same input again leaves the interpreter as it is. *)
Lemma set_input_twice rego data :
  Rego.set_input (Rego.set_input rego data) data = Rego.set_input rego data.
Proof. reflexivity. Qed.


(** The run loop stops at the first validator that raises: the ones after
    it leave no trace in the log. *)
Lemma run_stops_when_validator_raises v rest inputs log e :
  validate_inputs v inputs = Raise e ->
  run (v :: rest) inputs log
  = ((log ++ [Cli.Executing (Cli.validator_class v)])%list, Raise e).
Proof.
  intros H. cbn [Cli.run]. fold validate_inputs. now rewrite H.
Qed.

End Orchestrator.

Import Sample.

Lemma returned_report_is_business_rule_violation_witness :
  business_rule_violation
    {| pd_type := Some business_rule_violation_type;
       pd_status := Some business_rule_violation_status;
       pd_title := Some business_rule_violation_title;
       pd_detail := business_rule_violation_detail;
       pd_instance := None; pd_code := None;
       pd_errors := Some [entry ("data.workflow.deny[_]", "denied")] |}.
Proof.
  exact (returned_report_is_business_rule_violation
           parse_text parse_json eval query schema_validate
           (Cli.V_Rego (policy_validator ["data.workflow.deny[_]"]))
           (VDict []) eq_refl eq_refl).
Defined.

(** C1 fails on the code.  The filter hint comes first and the evaluation
    of its query raises: [_scan_workflow] raises that exception out of
    the run loop, and the policy validator built from the second hint is
    never executed.  The prepare loop of the same function does isolate a
    failure: the policy hint whose module does not compile is logged and
    skipped, and the filter validator after it runs. *)
Theorem scan_workflow_aborts_on_engine_failure :
  Cli._scan_workflow parse_text parse_json eval compile query no_schema
                     no_other_global schema_init schema_validate
                     (workflow_with [VDict crash_record; VDict policy_record])
                     (VDict [])
  = ([Cli.SettingUp "Cql2FilterHint"; Cli.SettingUp "RegoPolicyHint";
      Cli.SetupOver; Cli.Executing "Cql2Validator"],
     Raise (KeyError "missing"))
  /\ Cli._scan_workflow parse_text parse_json eval compile query no_schema
                        no_other_global schema_init schema_validate
                        (workflow_with [VDict broken_policy_record;
                                        VDict filter_record])
                        (VDict [])
     = ([Cli.SettingUp "RegoPolicyHint";
         Cli.SetupError "RegoPolicyHint" (EngineError "rego_parse_error");
         Cli.SettingUp "Cql2FilterHint";
         Cli.SetupOver; Cli.Executing "Cql2Validator";
         Cli.DetectedViolations "Cql2Validator";
         Cli.Violation (Some "q1") "out of area"],
        Ok tt).
Proof. split; reflexivity. Qed.

End CliFacts.

(** ** Dumps and constructors of the error models *)

Module ProblemFacts.
Import Problems.

Lemma constr_inv n field v s :
  constr n field v = Ok s ->
  v = VStr s /\ (String.length s <=? n)%nat = true.
Proof.
  destruct v; try discriminate. unfold constr.
  destruct (String.length s0 <=? n)%nat eqn:E; [|discriminate].
  intros [= <-]. auto.
Qed.

Lemma constr_fits n field s :
  (String.length s <=? n)%nat = true -> constr n field (VStr s) = Ok s.
Proof. intros H. unfold constr. now rewrite H. Qed.

Lemma optional_constr_within n field kwargs o :
  optional_constr n field kwargs = Ok o -> within n o = true.
Proof.
  unfold optional_constr.
  destruct (lookup field kwargs) as [v|]; [|now intros [= <-]].
  destruct v; try discriminate; try (now intros [= <-]).
  unfold constr. destruct (String.length s <=? n)%nat eqn:E; [|discriminate].
  intros [= <-]. exact E.
Qed.

(** An instance built from keyword arguments keeps the field limits. *)
Lemma ErrorDetail_validate_ok kwargs e :
  ErrorDetail_validate kwargs = Ok e -> ErrorDetail_ok e = true.
Proof.
  unfold ErrorDetail_validate. intros H.
  apply bind_ok_inv in H. destruct H as (d & Hd & H).
  apply bind_ok_inv in H. destruct H as (p & Hp & H).
  apply bind_ok_inv in H. destruct H as (pa & Hpa & H).
  apply bind_ok_inv in H. destruct H as (h & Hh & H).
  apply bind_ok_inv in H. destruct H as (c & Hc & H).
  injection H as <-. unfold ErrorDetail_ok. simpl.
  apply optional_constr_within in Hp, Hpa, Hh, Hc.
  rewrite Hp, Hpa, Hh, Hc.
  destruct (lookup "detail" kwargs) as [v|]; [|discriminate].
  apply constr_inv in Hd. destruct Hd as [_ ->]. reflexivity.
Qed.

(** The dump of an instance within the limits validates to it again. *)
Lemma ErrorDetail_dump_validate exclude_none e :
  ErrorDetail_ok e = true ->
  ErrorDetail_validate (ErrorDetail_model_dump exclude_none e) = Ok e.
Proof.
  destruct e as [d p pa h c]. unfold ErrorDetail_ok. simpl. intros H.
  repeat (apply andb_true_iff in H; destruct H as [H ?]).
  unfold ErrorDetail_model_dump, ErrorDetail_validate, optional_constr.
  destruct (exclude_none_default exclude_none);
    destruct p, pa, h, c; simpl in *;
    unfold constr;
    repeat match goal with
           | E : (_ <=? _)%nat = true |- _ => rewrite E; clear E
           end; reflexivity.
Qed.

Lemma errors_dump_validate exclude_none es :
  forallb ErrorDetail_ok es = true ->
  Hints.map_result ErrorDetail_of_value
    (map (fun e => VDict (ErrorDetail_model_dump exclude_none e)) es)
  = Ok es.
Proof.
  induction es as [|e es IH]; [reflexivity|]. cbn [forallb map].
  intros H. apply andb_true_iff in H. destruct H as [He Hes].
  cbn [Hints.map_result ErrorDetail_of_value].
  rewrite (ErrorDetail_dump_validate exclude_none e He). simpl.
  now rewrite IH.
Qed.

Lemma errors_validate_ok l es :
  Hints.map_result ErrorDetail_of_value l = Ok es ->
  forallb ErrorDetail_ok es = true /\ List.length es = List.length l.
Proof.
  revert es; induction l as [|v l IH]; simpl; intros es H.
  - injection H as <-. auto.
  - apply bind_ok_inv in H. destruct H as (e & He & H).
    apply bind_ok_inv in H. destruct H as (es' & Hes & H).
    injection H as <-. destruct (IH _ Hes) as [Hok Hlen].
    destruct v; try discriminate. simpl in He.
    apply ErrorDetail_validate_ok in He. simpl. rewrite He, Hok, Hlen. auto.
Qed.

Lemma literal_str_inv field expected kwargs s :
  literal_str field expected kwargs = Ok s -> s = expected.
Proof.
  unfold literal_str. destruct (lookup field kwargs) as [[]|];
    try discriminate; [|now intros [= <-]].
  destruct (s0 =? expected); [now intros [= <-]|discriminate].
Qed.

Lemma literal_int_inv field expected kwargs z :
  literal_int field expected kwargs = Ok z -> z = expected.
Proof.
  unfold literal_int. destruct (lookup field kwargs) as [[]|];
    try discriminate; [|now intros [= <-]].
  destruct (z0 =? expected)%Z; [now intros [= <-]|discriminate].
Qed.

(** What the constructor of a kind establishes. *)
Lemma problem_init_ok k kwargs r :
  problem_init k kwargs = Ok r -> problem_ok k r.
Proof.
  unfold problem_init. intros H.
  apply bind_ok_inv in H. destruct H as (ty & Hty & H).
  apply bind_ok_inv in H. destruct H as (st & Hst & H).
  apply bind_ok_inv in H. destruct H as (ti & Hti & H).
  apply bind_ok_inv in H. destruct H as (de & Hde & H).
  apply bind_ok_inv in H. destruct H as (i & Hi & H).
  apply bind_ok_inv in H. destruct H as (c & Hc & H).
  apply bind_ok_inv in H. destruct H as (es & Hes & H).
  injection H as <-.
  apply literal_str_inv in Hty, Hti, Hde. apply literal_int_inv in Hst.
  apply optional_constr_within in Hi, Hc. subst.
  unfold problem_ok. simpl. repeat split; auto.
  unfold errors_field in Hes.
  destruct (lookup "errors" kwargs) as [[ | | | |l| | ]|]; try discriminate;
    try (injection Hes as <-; exact I).
  destruct (List.length l <=? 1000)%nat eqn:Hl; [|discriminate].
  apply bind_ok_inv in Hes. destruct Hes as (es' & Hv & Hes).
  injection Hes as <-. apply errors_validate_ok in Hv.
  destruct Hv as [Hok Hlen]. apply Nat.leb_le in Hl. split; [lia|exact Hok].
Qed.

(** The dump of an instance of a kind validates to it again. *)
Lemma problem_dump_init exclude_none k r :
  problem_ok k r ->
  problem_init k (ProblemDetails_model_dump exclude_none r) = Ok r.
Proof.
  destruct r as [ty st ti de i c es]. unfold problem_ok. simpl.
  intros (-> & -> & -> & -> & Hi & Hc & Hes).
  unfold ProblemDetails_model_dump, problem_init, literal_str, literal_int,
    optional_constr, errors_field.
  destruct (exclude_none_default exclude_none) eqn:Hx;
    destruct i, c, es; simpl in *;
    rewrite ?String.eqb_refl, ?Z.eqb_refl; simpl;
    unfold constr;
    repeat match goal with
           | E : (_ <=? _)%nat = true |- _ => rewrite E; clear E
           end; simpl;
    try match goal with
        | Hes : (_ <= _)%nat /\ _ |- _ =>
            destruct Hes as [Hlen Hok];
            rewrite length_map; apply Nat.leb_le in Hlen; rewrite Hlen;
            rewrite (errors_dump_validate exclude_none l Hok); simpl
        end;
    reflexivity.
Qed.

Lemma kind_type_injective k k' :
  (kind_type k =? kind_type k') = true -> k = k'.
Proof.
  destruct k, k'; vm_compute; intros H; (reflexivity || discriminate H).
Qed.

Lemma ErrorDetail_init_ok pointer detail e :
  ErrorDetail_init pointer detail = Ok e -> ErrorDetail_ok e = true.
Proof.
  unfold ErrorDetail_init. intros H.
  apply bind_ok_inv in H. destruct H as (d & Hd & H).
  apply bind_ok_inv in H. destruct H as (p & Hp & H).
  injection H as <-. apply constr_inv in Hd. destruct Hd as [_ Hd].
  unfold ErrorDetail_ok. simpl. rewrite Hd. simpl.
  destruct pointer; try discriminate; try (injection Hp as <-; reflexivity).
  apply bind_ok_inv in Hp. destruct Hp as (s' & Hs & Hp).
  injection Hp as <-. apply constr_inv in Hs. destruct Hs as [_ Hs].
  simpl. rewrite Hs. reflexivity.
Qed.

(** X1.  Whatever the keyword arguments, an [ErrorDetail] that the
    constructor returns keeps the limits of its fields, and its dump, with
    or without the [None] entries, is accepted by the constructor and
    gives the same instance back. *)
Theorem error_detail_dump_round_trip
        (kwargs : dict) (e : ErrorDetail) (exclude_none : option bool) :
  ErrorDetail_validate kwargs = Ok e ->
  ErrorDetail_ok e = true /\
  ErrorDetail_validate (ErrorDetail_model_dump exclude_none e) = Ok e.
Proof.
  intros H. apply ErrorDetail_validate_ok in H. split; [exact H|].
  now apply ErrorDetail_dump_validate.
Qed.

(** X2.  Whatever the keyword arguments, a report that the constructor of
    a problem kind returns carries the type, status, title and detail of
    that kind and keeps the limits of the other fields, and its dump is
    accepted by the same constructor and gives the same report back. *)
Theorem problem_kind_dump_round_trip
        (k : problem_kind) (kwargs : dict) (r : ProblemDetails)
        (exclude_none : option bool) :
  problem_init k kwargs = Ok r ->
  problem_ok k r /\
  problem_init k (ProblemDetails_model_dump exclude_none r) = Ok r.
Proof.
  intros H. apply problem_init_ok in H. split; [exact H|].
  now apply problem_dump_init.
Qed.

(** X3.  The dump of a report of one kind is rejected by the constructor
    of every other kind. *)
Theorem problem_dump_rejected_by_other_kind
        (k k' : problem_kind) (kwargs : dict) (r : ProblemDetails)
        (exclude_none : option bool) :
  problem_init k kwargs = Ok r ->
  k' <> k ->
  exists e,
    problem_init k' (ProblemDetails_model_dump exclude_none r) = Raise e.
Proof.
  intros H Hk. apply problem_init_ok in H.
  destruct r as [ty st ti de i c es]. unfold problem_ok in H. simpl in H.
  destruct H as (-> & _).
  unfold problem_init, ProblemDetails_model_dump, literal_str. simpl.
  destruct (kind_type k =? kind_type k') eqn:E.
  - apply kind_type_injective in E. congruence.
  - simpl. eauto.
Qed.

(** X4.  The literals of every problem kind satisfy the constraints the
    base model puts on the same fields (a status from 100 to 599, a title
    of at most 1024 characters, a detail of at most 4096); the types of
    the kinds are pairwise distinct; the type of every kind but
    [MissingRequestParameter] is a value of the enumeration [Type], and
    every value of [Type] other than [about:blank] is the type of a
    kind. *)
Theorem problem_kinds_consistent :
  (forall k, (100 <= kind_status k <= 599)%Z /\
             (String.length (kind_title k) <= 1024)%nat /\
             (String.length (kind_detail k) <= 4096)%nat)
  /\ (forall k k', kind_type k = kind_type k' -> k = k')
  /\ (forall k, In (kind_type k) Type_values <->
                 k <> K_MissingRequestParameter)
  /\ (forall t, In t Type_values ->
                 t = "about:blank" \/ exists k, kind_type k = t).
Proof.
  split; [|split; [|split]].
  - intros k. destruct k; vm_compute; repeat split; try discriminate;
      repeat constructor.
  - intros k k' H. apply kind_type_injective. rewrite H.
    apply String.eqb_refl.
  - intros k. split.
    + intros Hin ->. simpl in Hin.
      repeat (destruct Hin as [Hin|Hin]; [discriminate|]). exact Hin.
    + intros Hk. destruct k; try (now contradiction Hk); simpl; tauto.
  - intros t Hin. simpl in Hin.
    destruct Hin as [<-|Hin]; [now left|]. right.
    repeat (destruct Hin as [<-|Hin];
            [first [ exists K_AlreadyExists; reflexivity
                   | exists K_BadRequest; reflexivity
                   | exists K_BusinessRuleViolation; reflexivity
                   | exists K_Forbidden; reflexivity
                   | exists K_InvalidBodyPropertyFormat; reflexivity
                   | exists K_InvalidBodyPropertyValue; reflexivity
                   | exists K_InvalidParameters; reflexivity
                   | exists K_InvalidRequestHeaderFormat; reflexivity
                   | exists K_InvalidRequestParameterFormat; reflexivity
                   | exists K_InvalidRequestParameterValue; reflexivity
                   | exists K_LicenseCancelled; reflexivity
                   | exists K_LicenseExpired; reflexivity
                   | exists K_MissingBodyProperty; reflexivity
                   | exists K_MissingRequestHeader; reflexivity
                   | exists K_NotFound; reflexivity
                   | exists K_ServerError; reflexivity
                   | exists K_ServiceUnavailable; reflexivity
                   | exists K_Unauthorized; reflexivity
                   | exists K_ValidationError; reflexivity ]|]).
    contradiction.
Qed.

Lemma error_detail_dump_round_trip_witness :
  let kwargs := [("pointer", VStr "q1"); ("detail", VStr "out of area");
                 ("code", VNone); ("colour", VStr "red")] in
  let e := {| ed_detail := "out of area"; ed_pointer := Some "q1";
              ed_parameter := None; ed_header := None; ed_code := None |} in
  ErrorDetail_ok e = true /\
  ErrorDetail_validate (ErrorDetail_model_dump (Some false) e) = Ok e.
Proof.
  exact (error_detail_dump_round_trip
           [("pointer", VStr "q1"); ("detail", VStr "out of area");
            ("code", VNone); ("colour", VStr "red")]
           (Some false) eq_refl).
Defined.

Lemma problem_kind_dump_round_trip_witness :
  problem_ok K_NotFound sample_report /\
  problem_init K_NotFound (ProblemDetails_model_dump None sample_report)
  = Ok sample_report.
Proof.
  exact (problem_kind_dump_round_trip K_NotFound
           [("status", VNum 404); ("instance", VStr "/jobs/42");
            ("errors", VList [VDict [("detail", VStr "no such job");
                                     ("parameter", VStr "jobId")]])]
           None eq_refl).
Defined.

Lemma problem_dump_rejected_by_other_kind_witness :
  exists e,
    problem_init K_ServerError
                 (ProblemDetails_model_dump None sample_report) = Raise e.
Proof.
  refine (problem_dump_rejected_by_other_kind (k := K_NotFound)
            (k' := K_ServerError)
            [("status", VNum 404); ("instance", VStr "/jobs/42");
             ("errors", VList [VDict [("detail", VStr "no such job");
                                      ("parameter", VStr "jobId")]])]
            None eq_refl _).
  discriminate.
Defined.

End ProblemFacts.

(** ** More on the hint resolver *)

Module ResolverMore.
Import Hints Spec Behaviour ResolverFacts.

Lemma for_each_append {A S} (body : S -> A -> result S) (xs ys : list A)
      (s : S) :
  for_each body (xs ++ ys) s = (s' <- for_each body xs s ;; for_each body ys s').
Proof.
  revert s; induction xs as [|x xs IH]; intros s; simpl; [reflexivity|].
  destruct (body s x) as [s'|e]; simpl; [apply IH | reflexivity].
Qed.

Lemma for_each_invariant {A S} (P : S -> Prop) (body : S -> A -> result S)
      (xs : list A) (s s' : S) :
  (forall s x s', P s -> body s x = Ok s' -> P s') ->
  P s -> for_each body xs s = Ok s' -> P s'.
Proof.
  intros Hstep. revert s; induction xs as [|x xs IH]; intros s Hs H.
  - simpl in H. now injection H as <-.
  - simpl in H. apply bind_ok_inv in H. destruct H as (mid & Hb & H).
    eapply IH; [|exact H]. eapply Hstep; eauto.
Qed.

Lemma map_result_pyd_str_inv field l qs :
  map_result (pyd_str field) l = Ok qs -> l = map VStr qs.
Proof.
  revert qs; induction l as [|v l IH]; simpl; intros qs H.
  - now injection H as <-.
  - apply bind_ok_inv in H. destruct H as (q & Hq & H).
    apply bind_ok_inv in H. destruct H as (qs' & Hqs & H).
    injection H as <-. destruct v; try discriminate.
    injection Hq as ->. simpl. now rewrite (IH _ Hqs).
Qed.

Section Resolver.

Variable accepts : string -> dict -> bool.

Local Abbreviation resolve := (_get_assertion_hint_by_name accepts).

(** The three constructors read the declared fields only. *)
Lemma init_same_fields pw hint hint' :
  same_hint_fields hint hint' ->
  JSONSchemaHint_init pw hint' = JSONSchemaHint_init pw hint /\
  RegoPolicyHint_init pw hint' = RegoPolicyHint_init pw hint /\
  Cql2FilterHint_init pw hint' = Cql2FilterHint_init pw hint.
Proof.
  intros H.
  assert (Hj : lookup "json_schema" hint' = lookup "json_schema" hint)
    by (apply H; simpl; auto).
  assert (Hm : lookup "module" hint' = lookup "module" hint)
    by (apply H; simpl; auto).
  assert (Hq : lookup "queries" hint' = lookup "queries" hint)
    by (apply H; simpl; auto).
  unfold JSONSchemaHint_init, RegoPolicyHint_init, Cql2FilterHint_init,
    required.
  now rewrite Hj, Hm, Hq.
Qed.

(** X5.  Whether and to which Hint a record resolves depends only on the
    last segment of its marked discriminator and on its declared fields
    ([parent_workflow], [json_schema], [module], [queries]): a record
    with another marked discriminator of the same last segment and with
    the same declared fields, whatever else it holds, resolves to the same
    Hint.  A record that holds a [parent_workflow] field never
    resolves. *)
Theorem resolution_reads_declared_fields_only
        (pw : option Workflow) (hint hint' : dict) :
  (forall h c',
      resolve pw hint = Ok (Some (OHint h)) ->
      lookup "class" hint' = Some (VStr c') ->
      contains "eoap:" c' = true ->
      last_segment ":" c' = class_name h ->
      same_hint_fields hint hint' ->
      resolve pw hint' = Ok (Some (OHint h)))
  /\ (forall c v,
         lookup "class" hint = Some (VStr c) ->
         lookup "parent_workflow" hint = Some v ->
         resolve pw hint = Ok None).
Proof.
  split.
  - intros h c' H Hc' Hm' Hn' Hsame.
    apply resolve_hint_inv in H.
    destruct H as (c & _ & _ & _ & _ & Hpw & Hi).
    rewrite (resolve_class_string accepts pw hint' Hc'), Hm', Hn'.
    assert (Hpw' : lookup "parent_workflow" hint' = None).
    { rewrite (Hsame "parent_workflow"); [exact Hpw|simpl; auto]. }
    destruct (init_same_fields pw Hsame) as (Hj & Hr & Hf).
    destruct h; simpl; unfold call_hint_kind; rewrite Hpw';
      [rewrite Hj|rewrite Hr|rewrite Hf]; rewrite Hi; reflexivity.
  - intros c v Hc Hpw.
    rewrite (resolve_class_string accepts pw hint Hc).
    destruct (contains "eoap:" c); [|reflexivity].
    destruct (globals (last_segment ":" c)) as [g|]; [|reflexivity].
    simpl. unfold call_hint_kind. now rewrite Hpw.
Qed.

(** X6.  Exactly which records resolve to a schema or a policy Hint.  A
    marked record whose last segment is [JSONSchemaHint] resolves to the
    schema Hint with a given schema exactly when it holds no
    [parent_workflow] field and its [json_schema] is that mapping, or is
    absent and the schema is empty.  A marked record whose last segment is
    [RegoPolicyHint] resolves to the policy Hint with a given module and
    queries exactly when it holds no [parent_workflow] field, its
    [module] is that string and its [queries] the list of these
    strings. *)
Theorem schema_and_policy_records_that_resolve
        (pw : option Workflow) (hint : dict) (c : string) :
  lookup "class" hint = Some (VStr c) ->
  contains "eoap:" c = true ->
  (last_segment ":" c = "JSONSchemaHint" ->
   forall js,
     resolve pw hint = Ok (Some (OHint (JSONSchemaHint pw js))) <->
     lookup "parent_workflow" hint = None /\
     (lookup "json_schema" hint = Some (VDict js) \/
      lookup "json_schema" hint = None /\ js = []))
  /\ (last_segment ":" c = "RegoPolicyHint" ->
      forall m qs,
        resolve pw hint = Ok (Some (OHint (RegoPolicyHint pw m qs))) <->
        lookup "parent_workflow" hint = None /\
        lookup "module" hint = Some (VStr m) /\
        lookup "queries" hint = Some (VList (map VStr qs))).
Proof.
  intros Hc Hm. split; intros Hn.
  - intros js. rewrite (resolve_class_string accepts pw hint Hc), Hm, Hn.
    simpl. unfold call_hint_kind, JSONSchemaHint_init. split.
    + destruct (lookup "parent_workflow" hint); [discriminate|].
      destruct (lookup "json_schema" hint) as [v|]; simpl.
      * destruct v; simpl; try discriminate. intros [= <-]. auto.
      * intros [= <-]. auto.
    + intros (-> & [-> | (-> & ->)]); reflexivity.
  - intros m qs. rewrite (resolve_class_string accepts pw hint Hc), Hm, Hn.
    simpl. unfold call_hint_kind, RegoPolicyHint_init, required. split.
    + destruct (lookup "parent_workflow" hint); [discriminate|].
      destruct (lookup "module" hint) as [vm|]; simpl; [|discriminate].
      destruct vm; simpl; try discriminate.
      destruct (lookup "queries" hint) as [vq|]; simpl; [|discriminate].
      destruct vq; simpl; try discriminate.
      destruct (map_result (pyd_str "queries") l) as [qs'|] eqn:Hq; simpl;
        [|discriminate].
      intros [= <- <-]. apply map_result_pyd_str_inv in Hq. subst l. auto.
    + intros (-> & -> & ->). simpl.
      now rewrite map_result_pyd_str.
Qed.

(** The step of the extraction loop keeps the parent of the hints. *)
Lemma extract_step_parent w os v os' :
  (forall h, In (OHint h) os -> parent_workflow_of h = Some w) ->
  extract_step accepts w os v = Ok os' ->
  forall h, In (OHint h) os' -> parent_workflow_of h = Some w.
Proof.
  intros Hos H h Hin. destruct v; simpl in H;
    try (injection H as <-; now apply Hos).
  apply bind_ok_inv in H. destruct H as (r & Hr & H).
  destruct r as [o|]; injection H as <-; [|now apply Hos].
  apply in_app_or in Hin. destruct Hin as [Hin|[->|[]]]; [now apply Hos|].
  apply resolve_hint_inv in Hr. destruct Hr as (_ & _ & _ & _ & Hp & _).
  exact Hp.
Qed.

Lemma extract_parent_of_hints w os :
  extract_assertion_hints accepts w = Ok os ->
  forall h, In (OHint h) os -> parent_workflow_of h = Some w.
Proof.
  unfold extract_assertion_hints. intros H.
  destruct (wf_hints w) as [[|v hints]|];
    try (injection H as <-; intros h []).
  apply (@for_each_invariant value (list obj)
           (fun s => forall h, In (OHint h) s ->
                               parent_workflow_of h = Some w)
           (extract_step accepts w) (v :: hints) [] os);
    [cbv beta; intros s x s'; apply extract_step_parent
    |cbv beta; intros h []
    |exact H].
Qed.

(** X7.  Every Hint that [extract_assertion_hints] returns refers to the
    workflow it was extracted from, and the result holds at most one
    instance per dict among the hints of the workflow. *)
Theorem extracted_hints_refer_to_workflow (w : Workflow) (os : list obj) :
  extract_assertion_hints accepts w = Ok os ->
  (forall h, In (OHint h) os -> parent_workflow_of h = Some w)
  /\ (List.length os
      <= List.length (filter (fun v => match v with
                                       | VDict _ => true
                                       | _ => false
                                       end)
                             (match wf_hints w with
                              | Some hints => hints
                              | None => []
                              end)))%nat.
Proof.
  intros H. split; [now apply extract_parent_of_hints|].
  unfold extract_assertion_hints in H.
  destruct (wf_hints w) as [[|v hints]|];
    try (injection H as <-; simpl; lia).
  change (List.length os
          <= List.length (@nil obj)
             + List.length (filter (fun v => match v with
                                             | VDict _ => true
                                             | _ => false
                                             end) (v :: hints)))%nat.
  revert H. generalize (v :: hints) as l. generalize (@nil obj) as acc.
  intros acc l; revert acc os; induction l as [|x l IH]; intros acc os H.
  - simpl in H. injection H as <-. simpl. lia.
  - simpl in H. apply bind_ok_inv in H. destruct H as (mid & Hx & H).
    apply IH in H. destruct x; simpl in Hx |- *;
      try (injection Hx as <-; exact H).
    apply bind_ok_inv in Hx. destruct Hx as (r & _ & Hx).
    destruct r; injection Hx as <-; [rewrite length_app in H; simpl in H|];
      lia.
Qed.

(** X8.  A dict without a [class] field among the hints, after raw hint
    records only, makes [extract_assertion_hints] raise [KeyError]: the
    hints resolved before it are lost and the records after it are not
    looked at. *)
Theorem extract_raises_on_record_without_class
        (w : Workflow) (pre post : list value) (d : dict) :
  wf_hints w = Some (pre ++ VDict d :: post)%list ->
  forallb raw_hint pre = true ->
  lookup "class" d = None ->
  extract_assertion_hints accepts w = Raise (KeyError "class").
Proof.
  intros Hh Hraw Hc. unfold extract_assertion_hints. rewrite Hh.
  destruct (pre ++ VDict d :: post)%list as [|x l] eqn:E.
  - destruct pre; discriminate.
  - rewrite <- E, for_each_append, (extract_loop accepts w pre [] Hraw).
    simpl. unfold _get_assertion_hint_by_name, getitem. now rewrite Hc.
Qed.

End Resolver.

Import Sample.

Lemma resolution_reads_declared_fields_only_witness :
  _get_assertion_hint_by_name no_other_global None
    [("label", VStr "area check"); ("class", VStr "ns/eoap:v2:RegoPolicyHint");
     ("queries", VList [VStr "data.workflow.deny[_]"]);
     ("module", VStr "package workflow")]
  = Ok (Some (OHint (RegoPolicyHint None "package workflow"
                                    ["data.workflow.deny[_]"])))
  /\ _get_assertion_hint_by_name no_other_global None
       (("parent_workflow", VNone) :: policy_record) = Ok None.
Proof.
  split.
  - refine (proj1 (resolution_reads_declared_fields_only
                     no_other_global None policy_record
                     [("label", VStr "area check");
                      ("class", VStr "ns/eoap:v2:RegoPolicyHint");
                      ("queries", VList [VStr "data.workflow.deny[_]"]);
                      ("module", VStr "package workflow")])
                  (RegoPolicyHint None "package workflow"
                                  ["data.workflow.deny[_]"])
                  "ns/eoap:v2:RegoPolicyHint" eq_refl eq_refl eq_refl
                  eq_refl _).
    intros field [<-|[<-|[<-|[<-|[]]]]]; reflexivity.
  - exact (proj2 (resolution_reads_declared_fields_only
                    no_other_global None
                    (("parent_workflow", VNone) :: policy_record) [])
                 "eoap:RegoPolicyHint" VNone eq_refl eq_refl).
Defined.

Lemma schema_and_policy_records_that_resolve_witness :
  _get_assertion_hint_by_name no_other_global None schema_record
  = Ok (Some (OHint (JSONSchemaHint None [("type", VStr "object")])))
  /\ _get_assertion_hint_by_name no_other_global None policy_record
     = Ok (Some (OHint (RegoPolicyHint None "package workflow"
                                       ["data.workflow.deny[_]"]))).
Proof.
  split.
  - apply (proj1 (schema_and_policy_records_that_resolve
                    no_other_global None schema_record
                    (c := "eoap:JSONSchemaHint") eq_refl eq_refl) eq_refl).
    split; [reflexivity|]. left. reflexivity.
  - apply (proj2 (schema_and_policy_records_that_resolve
                    no_other_global None policy_record
                    (c := "eoap:RegoPolicyHint") eq_refl eq_refl) eq_refl
                 "package workflow" ["data.workflow.deny[_]"]).
    repeat split.
Defined.

Lemma extracted_hints_refer_to_workflow_witness :
  let w := workflow_with [VDict policy_record; VStr "note";
                          VDict filter_record] in
  (forall h,
      In (OHint h)
         [OHint (RegoPolicyHint (Some w) "package workflow"
                                ["data.workflow.deny[_]"]);
          OHint (Cql2FilterHint (Some w)
                   [{| q_id := "q1"; q_cql2 := VStr "FALSE";
                       q_message := "out of area" |}])] ->
      parent_workflow_of h = Some w)
  /\ (2 <= 2)%nat.
Proof.
  exact (extracted_hints_refer_to_workflow no_other_global
           (workflow_with [VDict policy_record; VStr "note";
                           VDict filter_record]) eq_refl).
Defined.

Lemma extract_raises_on_record_without_class_witness :
  extract_assertion_hints no_other_global
    (workflow_with [VDict policy_record;
                    VDict [("module", VStr "package workflow")];
                    VDict filter_record])
  = Raise (KeyError "class").
Proof.
  exact (extract_raises_on_record_without_class no_other_global
           (workflow_with [VDict policy_record;
                           VDict [("module", VStr "package workflow")];
                           VDict filter_record])
           [VDict policy_record] [VDict filter_record]
           [("module", VStr "package workflow")] eq_refl eq_refl eq_refl).
Defined.

End ResolverMore.

(** ** From a hint to its validator *)

Module BuildFacts.
Import Hints Spec Behaviour.

Section Build.

Variable compile_module : string -> result unit.
Variable get_inputs_json_schema : Workflow -> result dict.
Variable JSONSchemaValidator_init : dict -> result unit.
Variable accepts : string -> dict -> bool.

Local Abbreviation validator :=
  (Cli.validator compile_module get_inputs_json_schema
                 JSONSchemaValidator_init).


(** X10.  For a schema Hint that [extract_assertion_hints] returns, the
    schema declared in its record is not used: what the Hint serializes to
    and the validator it builds are those of the schema derived from the
    workflow, whatever the declared schema. *)
Theorem extracted_schema_hint_derives_from_workflow
        (w : Workflow) (os : list obj) (pw : option Workflow) (js : dict) :
  extract_assertion_hints accepts w = Ok os ->
  In (OHint (JSONSchemaHint pw js)) os ->
  ser_model get_inputs_json_schema (JSONSchemaHint pw js)
  = get_inputs_json_schema w
  /\ forall js',
      validator (JSONSchemaHint pw js')
      = (schema <- get_inputs_json_schema w ;;
         _ <- JSONSchemaValidator_init schema ;;
         Ok (Cli.V_JSONSchema schema)).
Proof.
  intros H Hin.
  pose proof (ResolverMore.extract_parent_of_hints accepts w H _ Hin) as Hp.
  simpl in Hp. subst pw. split; [reflexivity|]. intros js'. reflexivity.
Qed.

End Build.

Import Sample.


(** The schema derived from a workflow in the sample below. *)
Lemma extracted_schema_hint_derives_from_workflow_witness :
  let w := workflow_with [VDict schema_record] in
  let derived := fun _ : Workflow => Ok [("type", VStr "array")] in
  ser_model derived (JSONSchemaHint (Some w) [("type", VStr "object")])
  = Ok [("type", VStr "array")]
  /\ forall js',
      Cli.validator compile derived schema_init (JSONSchemaHint (Some w) js')
      = (schema <- Ok [("type", VStr "array")] ;;
         _ <- schema_init schema ;;
         Ok (Cli.V_JSONSchema schema)).
Proof.
  exact (@extracted_schema_hint_derives_from_workflow
           compile (fun _ : Workflow => Ok [("type", VStr "array")])
           schema_init no_other_global
           (workflow_with [VDict schema_record])
           [OHint (JSONSchemaHint
                     (Some (workflow_with [VDict schema_record]))
                     [("type", VStr "object")])]
           (Some (workflow_with [VDict schema_record]))
           [("type", VStr "object")]
           eq_refl (or_introl eq_refl)).
Defined.

End BuildFacts.

(** ** The phases of the orchestrator *)

Module OrchestratorFacts.
Import Hints Spec Behaviour.

Section Orchestrator.

Variable Ast : Type.
Variable parse_cql2_text : string -> result Ast.
Variable parse_cql2_json : dict -> result Ast.
Variable evaluate : Ast -> value -> result bool.
Variable compile_module : string -> result unit.
Variable rego_query : Rego.Interpreter -> string -> result (list (list value)).
Variable get_inputs_json_schema : Workflow -> result dict.
Variable other_global_accepts : string -> dict -> bool.
Variable JSONSchemaValidator_init : dict -> result unit.
Variable JSONSchemaValidator_validate_inputs :
  dict -> value -> result (option ProblemDetails).

Local Abbreviation prepare :=
  (Cli.prepare compile_module get_inputs_json_schema JSONSchemaValidator_init).
Local Abbreviation run :=
  (Cli.run parse_cql2_text parse_cql2_json evaluate rego_query
           JSONSchemaValidator_validate_inputs).
Local Abbreviation _scan_workflow :=
  (Cli._scan_workflow parse_cql2_text parse_cql2_json evaluate compile_module
                      rego_query get_inputs_json_schema other_global_accepts
                      JSONSchemaValidator_init
                      JSONSchemaValidator_validate_inputs).
Local Abbreviation build :=
  (Behaviour.build compile_module get_inputs_json_schema
                   JSONSchemaValidator_init).
Local Abbreviation built :=
  (Behaviour.built compile_module get_inputs_json_schema
                   JSONSchemaValidator_init).
Local Abbreviation setup_lines :=
  (Behaviour.setup_lines compile_module get_inputs_json_schema
                         JSONSchemaValidator_init).
Local Abbreviation validate :=
  (Behaviour.validate parse_cql2_text parse_cql2_json evaluate rego_query
                      JSONSchemaValidator_validate_inputs).
Local Abbreviation validator_lines :=
  (Behaviour.validator_lines parse_cql2_text parse_cql2_json evaluate
                             rego_query JSONSchemaValidator_validate_inputs).
Local Abbreviation returns_report :=
  (Behaviour.returns_report parse_cql2_text parse_cql2_json evaluate
                            rego_query JSONSchemaValidator_validate_inputs).

Lemma prepare_spec objs vs log :
  prepare objs vs log = ((vs ++ built objs)%list, (log ++ setup_lines objs)%list).
Proof.
  revert vs log; induction objs as [|o objs IH]; intros vs log.
  - simpl. now rewrite !app_nil_r.
  - cbn [Cli.prepare Behaviour.built Behaviour.setup_lines flat_map].
    fold (build o). destruct (build o) as [v|e]; rewrite IH.
    + simpl. now rewrite <- !app_assoc.
    + simpl. now rewrite <- !app_assoc.
Qed.

Lemma run_returning vs inputs log :
  forallb (returns_report inputs) vs = true ->
  run vs inputs log
  = ((log ++ flat_map (validator_lines inputs) vs)%list, Ok tt).
Proof.
  revert log; induction vs as [|v vs IH]; intros log H.
  - simpl. now rewrite app_nil_r.
  - cbn [forallb] in H. apply andb_true_iff in H. destruct H as [Hv H].
    cbn [Cli.run flat_map]. unfold Behaviour.returns_report in Hv.
    unfold Behaviour.validator_lines at 1. fold (validate v inputs).
    destruct (validate v inputs) as [[pd|]|e]; [| |discriminate].
    + destruct (pd_errors pd) as [errors|]; [|discriminate].
      rewrite IH by exact H. now rewrite <- !app_assoc.
    + rewrite IH by exact H. now rewrite <- !app_assoc.
Qed.

Lemma run_append pre post inputs log :
  forallb (returns_report inputs) pre = true ->
  run (pre ++ post) inputs log
  = run post inputs (log ++ flat_map (validator_lines inputs) pre)%list.
Proof.
  revert log; induction pre as [|v pre IH]; intros log H.
  - simpl. now rewrite app_nil_r.
  - cbn [forallb] in H. apply andb_true_iff in H. destruct H as [Hv H].
    cbn [app Cli.run flat_map]. unfold Behaviour.returns_report in Hv.
    unfold Behaviour.validator_lines at 1. fold (validate v inputs).
    destruct (validate v inputs) as [[pd|]|e]; [| |discriminate].
    + destruct (pd_errors pd) as [errors|]; [|discriminate].
      rewrite IH by exact H. now rewrite <- !app_assoc.
    + rewrite IH by exact H. now rewrite <- !app_assoc.
Qed.

(** X11.  The prepare loop builds, in order, exactly the validators of the
    hint instances whose [validator()] returns, logs one line for every
    instance and one more for every failure, and goes on after a failure;
    every validator it builds is that of a Hint among the instances (an
    instance that is not a Hint is never built). *)
Theorem prepare_builds_what_it_can (objs : list obj) :
  prepare objs [] [] = (built objs, setup_lines objs)
  /\ (forall v, In v (built objs) ->
                exists h, In (OHint h) objs /\
                          Cli.validator compile_module get_inputs_json_schema
                                        JSONSchemaValidator_init h = Ok v)
  /\ (List.length (built objs) <= List.length objs)%nat.
Proof.
  split; [apply prepare_spec|]. split.
  - induction objs as [|o objs IH]; [intros v []|].
    intros v Hin. cbn [Behaviour.built flat_map] in Hin.
    apply in_app_or in Hin. destruct Hin as [Hin|Hin].
    + destruct o as [h | q | name kwargs]; simpl in Hin; try contradiction.
      unfold Behaviour.build in Hin. simpl in Hin.
      destruct (Cli.validator compile_module get_inputs_json_schema
                              JSONSchemaValidator_init h) as [v'|] eqn:Hv;
        [|contradiction].
      destruct Hin as [<-|[]]. exists h. split; [now left|exact Hv].
    + destruct (IH v Hin) as (h & Hh & Hv). exists h. split; [now right|exact Hv].
  - induction objs as [|o objs IH]; [simpl; lia|].
    cbn [Behaviour.built flat_map]. rewrite length_app.
    fold (built objs). destruct (build o); simpl; lia.
Qed.

(** X12.  When every validator returns, with a list of errors when it
    returns a report, the run loop executes all of them in order and
    returns: its log is the concatenation of the lines of each validator,
    a report of one validator not affecting the lines of another. *)
Theorem run_reports_every_validator
        (vs : list Cli.Validator) (inputs : value) (log : list Cli.event) :
  forallb (returns_report inputs) vs = true ->
  run vs inputs log
  = ((log ++ flat_map (validator_lines inputs) vs)%list, Ok tt).
Proof.
  revert log; induction vs as [|v vs IH]; intros log H.
  - simpl. now rewrite app_nil_r.
  - cbn [forallb] in H. apply andb_true_iff in H. destruct H as [Hv H].
    cbn [Cli.run flat_map]. unfold Behaviour.returns_report in Hv.
    unfold Behaviour.validator_lines at 1. fold (validate v inputs).
    destruct (validate v inputs) as [[pd|]|e]; [| |discriminate].
    + destruct (pd_errors pd) as [errors|]; [|discriminate].
      rewrite IH by exact H. now rewrite <- !app_assoc.
    + rewrite IH by exact H. now rewrite <- !app_assoc.
Qed.

(** X13.  The run loop stops at the first validator whose call raises:
    after the lines of the validators before it, it logs that it executes
    this one and raises its exception; the validators after it are not
    called, whatever they are. *)
Theorem run_stops_at_first_raising_validator
        (pre post : list Cli.Validator) (v : Cli.Validator)
        (inputs : value) (log : list Cli.event) (e : exn) :
  forallb (returns_report inputs) pre = true ->
  validate v inputs = Raise e ->
  run (pre ++ v :: post) inputs log
  = ((log ++ flat_map (validator_lines inputs) pre
          ++ [Cli.Executing (Cli.validator_class v)])%list,
     Raise e).
Proof.
  intros Hpre Hv. rewrite (run_append pre (v :: post) inputs log Hpre).
  cbn [Cli.run]. fold (validate v inputs). rewrite Hv.
  now rewrite <- app_assoc.
Qed.

(** X14.  [_scan_workflow] by phases, for a workflow whose hints are raw
    records: with the instances they resolve to, it logs the prepare lines
    and, when no validator could be built (no hints, or only hints that
    fail), says so and returns without calling any validator; otherwise it
    runs the validators built.  When all of these return, it returns with
    the lines of each. *)
Theorem scan_workflow_phases
        (w : Workflow) (hints : list value) (inputs : value) :
  wf_hints w = Some hints ->
  forallb raw_hint hints = true ->
  let objs := resolved_of other_global_accepts w hints in
  (built objs = [] ->
   _scan_workflow w inputs
   = ((setup_lines objs ++ [Cli.NoValidators])%list, Ok tt))
  /\ (built objs <> [] ->
      _scan_workflow w inputs
      = run (built objs) inputs (setup_lines objs ++ [Cli.SetupOver])%list)
  /\ (built objs <> [] ->
      forallb (returns_report inputs) (built objs) = true ->
      _scan_workflow w inputs
      = ((setup_lines objs ++ [Cli.SetupOver]
            ++ flat_map (validator_lines inputs) (built objs))%list,
         Ok tt)).
Proof.
  intros Hh Hraw objs.
  assert (Hscan : _scan_workflow w inputs
                  = match built objs with
                    | _ :: _ =>
                        run (built objs) inputs
                            (setup_lines objs ++ [Cli.SetupOver])%list
                    | [] => ((setup_lines objs ++ [Cli.NoValidators])%list,
                             Ok tt)
                    end).
  { unfold Cli._scan_workflow.
    rewrite (ResolverFacts.extract_raw other_global_accepts w Hh Hraw).
    fold objs. rewrite prepare_spec. reflexivity. }
  split; [|split].
  - intros Hb. rewrite Hscan, Hb. reflexivity.
  - intros Hb. rewrite Hscan. destruct (built objs); [contradiction|reflexivity].
  - intros Hb Hret. rewrite Hscan.
    destruct (built objs) as [|v vs] eqn:E; [contradiction|].
    rewrite run_returning by exact Hret. now rewrite <- app_assoc.
Qed.

End Orchestrator.

Import Sample.

Lemma prepare_builds_what_it_can_witness :
  exists h,
    In (OHint h)
       [OHint (RegoPolicyHint None "not a module" []);
        OCql2Query q_true;
        OHint (Cql2FilterHint None [q_false])] /\
    Cli.validator compile no_schema schema_init h
    = Ok (Cli.V_Cql2 {| Cql2.queries := [q_false] |}).
Proof.
  exact (proj1 (proj2 (prepare_builds_what_it_can
                         compile no_schema schema_init
                         [OHint (RegoPolicyHint None "not a module" []);
                          OCql2Query q_true;
                          OHint (Cql2FilterHint None [q_false])]))
               (Cli.V_Cql2 {| Cql2.queries := [q_false] |})
               (or_introl eq_refl)).
Defined.

Lemma run_reports_every_validator_witness :
  Cli.run parse_text parse_json eval query schema_validate
          [Cli.V_Rego (policy_validator ["data.workflow.deny[_]"]);
           Cli.V_Cql2 {| Cql2.queries := [q_true] |}]
          (VDict []) []
  = ([Cli.Executing "RegoValidator"; Cli.DetectedViolations "RegoValidator";
      Cli.Violation (Some "data.workflow.deny[_]") "denied";
      Cli.Executing "Cql2Validator"; Cli.NoViolations "Cql2Validator"],
     Ok tt).
Proof.
  exact (run_reports_every_validator parse_text parse_json eval query
           schema_validate
           [Cli.V_Rego (policy_validator ["data.workflow.deny[_]"]);
            Cli.V_Cql2 {| Cql2.queries := [q_true] |}]
           (VDict []) [] eq_refl).
Defined.

Lemma run_stops_at_first_raising_validator_witness :
  Cli.run parse_text parse_json eval query schema_validate
          ([Cli.V_Cql2 {| Cql2.queries := [q_true] |}]
             ++ Cli.V_Cql2 {| Cql2.queries := [q_crash] |}
             :: [Cli.V_Rego (policy_validator ["data.workflow.deny[_]"])])
          (VDict []) []
  = ([Cli.Executing "Cql2Validator"; Cli.NoViolations "Cql2Validator";
      Cli.Executing "Cql2Validator"],
     Raise (KeyError "missing")).
Proof.
  exact (run_stops_at_first_raising_validator parse_text parse_json eval
           query schema_validate
           [Cli.V_Cql2 {| Cql2.queries := [q_true] |}]
           [Cli.V_Rego (policy_validator ["data.workflow.deny[_]"])]
           (Cli.V_Cql2 {| Cql2.queries := [q_crash] |})
           (VDict []) [] eq_refl eq_refl).
Defined.

Lemma scan_workflow_phases_witness :
  Cli._scan_workflow parse_text parse_json eval compile query no_schema
                     no_other_global schema_init schema_validate
                     (workflow_with [VDict broken_policy_record]) (VDict [])
  = ([Cli.SettingUp "RegoPolicyHint";
      Cli.SetupError "RegoPolicyHint" (EngineError "rego_parse_error");
      Cli.NoValidators],
     Ok tt)
  /\ Cli._scan_workflow parse_text parse_json eval compile query no_schema
                        no_other_global schema_init schema_validate
                        (workflow_with [VDict policy_record;
                                        VDict filter_record]) (VDict [])
     = ([Cli.SettingUp "RegoPolicyHint"; Cli.SettingUp "Cql2FilterHint";
         Cli.SetupOver;
         Cli.Executing "RegoValidator"; Cli.DetectedViolations "RegoValidator";
         Cli.Violation (Some "data.workflow.deny[_]") "denied";
         Cli.Executing "Cql2Validator"; Cli.DetectedViolations "Cql2Validator";
         Cli.Violation (Some "q1") "out of area"],
        Ok tt).
Proof.
  split.
  - exact (proj1 (scan_workflow_phases parse_text parse_json eval compile
                    query no_schema no_other_global schema_init
                    schema_validate
                    (workflow_with [VDict broken_policy_record])
                    (VDict []) eq_refl eq_refl) eq_refl).
  - refine (proj2 (proj2 (scan_workflow_phases parse_text parse_json eval
                    compile query no_schema no_other_global schema_init
                    schema_validate
                    (workflow_with [VDict policy_record; VDict filter_record])
                    (VDict []) eq_refl eq_refl)) _ eq_refl).
    discriminate.
Defined.

End OrchestratorFacts.

(** ** main *)

Module MainFacts.
Import Hints Behaviour.

Section Main.

Variable Ast : Type.
Variable parse_cql2_text : string -> result Ast.
Variable parse_cql2_json : dict -> result Ast.
Variable evaluate : Ast -> value -> result bool.
Variable compile_module : string -> result unit.
Variable rego_query : Rego.Interpreter -> string -> result (list (list value)).
Variable get_inputs_json_schema : Workflow -> result dict.
Variable other_global_accepts : string -> dict -> bool.
Variable JSONSchemaValidator_init : dict -> result unit.
Variable JSONSchemaValidator_validate_inputs :
  dict -> value -> result (option ProblemDetails).

Local Abbreviation scan :=
  (Main.scan parse_cql2_text parse_cql2_json evaluate compile_module
             rego_query get_inputs_json_schema other_global_accepts
             JSONSchemaValidator_init JSONSchemaValidator_validate_inputs).
Local Abbreviation scan_each :=
  (Main.scan_each parse_cql2_text parse_cql2_json evaluate compile_module
                  rego_query get_inputs_json_schema other_global_accepts
                  JSONSchemaValidator_init
                  JSONSchemaValidator_validate_inputs).
Local Abbreviation main :=
  (Main.main parse_cql2_text parse_cql2_json evaluate compile_module
             rego_query get_inputs_json_schema other_global_accepts
             JSONSchemaValidator_init JSONSchemaValidator_validate_inputs).

Lemma scan_each_returning wfs rest inputs :
  forallb (fun wf => Spec.is_ok (snd (scan wf inputs))) wfs = true ->
  scan_each (wfs ++ rest) inputs
  = ((flat_map (fun wf => fst (scan wf inputs)) wfs
        ++ fst (scan_each rest inputs))%list,
     snd (scan_each rest inputs)).
Proof.
  induction wfs as [|wf wfs IH]; intros H.
  - simpl. now destruct (scan_each rest inputs).
  - cbn [forallb] in H. apply andb_true_iff in H. destruct H as [Hwf H].
    cbn [app Main.scan_each flat_map].
    destruct (scan wf inputs) as [log [u|e]]; [|discriminate].
    rewrite (IH H). simpl. now rewrite app_assoc.
Qed.

(** X15.  [main] scans the workflows of a document in order.  A document
    that is a list of one workflow is scanned like that workflow alone;
    when every scan returns, the log is the logs of the scans followed by
    the closing banner; and the first scan that raises ends [main] with
    its exception: the workflows after it are not scanned and the banner
    is not printed. *)
Theorem main_scans_in_order (inputs : value) :
  (forall wf, main (Main.Many [wf]) inputs = main (Main.One wf) inputs)
  /\ (forall wfs,
         forallb (fun wf => Spec.is_ok (snd (scan wf inputs))) wfs = true ->
         main (Main.Many wfs) inputs
         = ((map Main.Scan (flat_map (fun wf => fst (scan wf inputs)) wfs)
               ++ [Main.ValidationComplete])%list,
            Ok tt))
  /\ (forall pre wf post e,
         forallb (fun wf => Spec.is_ok (snd (scan wf inputs))) pre = true ->
         snd (scan wf inputs) = Raise e ->
         main (Main.Many (pre ++ wf :: post)) inputs
         = (map Main.Scan (flat_map (fun wf => fst (scan wf inputs)) pre
                             ++ fst (scan wf inputs))%list,
            Raise e)).
Proof.
  split; [|split].
  - intros wf. unfold Main.main. cbn [Main.scan_each].
    destruct (scan wf inputs) as [log [u|e]]; [|reflexivity].
    now rewrite app_nil_r.
  - intros wfs H. unfold Main.main.
    pose proof (scan_each_returning wfs [] inputs H) as E.
    rewrite app_nil_r in E. rewrite E. simpl. now rewrite app_nil_r.
  - intros pre wf post e Hpre Hwf. unfold Main.main.
    rewrite (scan_each_returning pre (wf :: post) inputs Hpre).
    cbn [Main.scan_each]. destruct (scan wf inputs) as [log outcome].
    simpl in Hwf. subst outcome. reflexivity.
Qed.

End Main.

Import Sample.

Lemma main_scans_in_order_witness :
  let run_main :=
    Main.main parse_text parse_json eval compile query no_schema
              no_other_global schema_init schema_validate in
  let quiet := workflow_with [] in
  let crashing := workflow_with [VDict crash_record] in
  run_main (Main.Many [quiet; quiet]) (VDict [])
  = ([Main.Scan Cli.NoValidators; Main.Scan Cli.NoValidators;
      Main.ValidationComplete], Ok tt)
  /\ run_main (Main.Many ([quiet] ++ crashing :: [quiet])) (VDict [])
     = ([Main.Scan Cli.NoValidators;
         Main.Scan (Cli.SettingUp "Cql2FilterHint");
         Main.Scan Cli.SetupOver;
         Main.Scan (Cli.Executing "Cql2Validator")],
        Raise (KeyError "missing")).
Proof.
  pose proof (main_scans_in_order parse_text parse_json eval compile query
                no_schema no_other_global schema_init schema_validate
                (VDict [])) as (_ & H2 & H3).
  split.
  - exact (H2 [workflow_with []; workflow_with []] eq_refl).
  - exact (H3 [workflow_with []] (workflow_with [VDict crash_record])
              [workflow_with []] (KeyError "missing") eq_refl eq_refl).
Defined.

End MainFacts.

(** ** More on the validators *)

Module ValidatorMore.
Import Hints Spec Behaviour ReportFacts Problems ProblemFacts.

(** The limits of one entry. *)
Local Abbreviation entry_fits :=
  (fun f : string * string =>
     (String.length (fst f) <=? 1024)%nat
     && (String.length (snd f) <=? 4096)%nat).

Section Filter.

Variable Ast : Type.
Variable parse_cql2_text : string -> result Ast.
Variable parse_cql2_json : dict -> result Ast.
Variable evaluate : Ast -> value -> result bool.

Local Abbreviation check_filter :=
  (Cql2.check_filter parse_cql2_text parse_cql2_json evaluate).
Local Abbreviation validate_inputs :=
  (Cql2.validate_inputs parse_cql2_text parse_cql2_json evaluate).
Local Abbreviation parse_query :=
  (Spec.parse_query parse_cql2_text parse_cql2_json).
Local Abbreviation filter_findings :=
  (Spec.filter_findings parse_cql2_text parse_cql2_json evaluate).
Local Abbreviation evaluation_returns :=
  (Spec.evaluation_returns parse_cql2_text parse_cql2_json evaluate).

(** X16.  An exception of the evaluator ends the filter validator: when
    the queries before one evaluate and fit the limits, and the predicate
    of this one raises, [validate_inputs] raises that exception, whatever
    the queries before it found and whatever comes after it. *)
Theorem filter_validator_raises_with_evaluator
        (v : Cql2.Cql2Validator) (data : value)
        (pre post : list Cql2Query) (q : Cql2Query) (ast : Ast) (e : exn) :
  Cql2.queries v = (pre ++ q :: post)%list ->
  forallb (evaluation_returns data) pre = true ->
  forallb entry_fits (filter_findings data pre) = true ->
  parse_query q = inr ast ->
  evaluate ast data = Raise e ->
  validate_inputs v data = Raise e.
Proof.
  intros Hq Hret Hfit Hp He. unfold Cql2.validate_inputs.
  rewrite Hq, ResolverMore.for_each_append.
  rewrite (FilterFacts.loop_findings parse_cql2_text parse_cql2_json
             evaluate data pre [] Hret Hfit).
  cbn [bind for_each].
  rewrite FilterFacts.check_filter_spec, Hp, He. reflexivity.
Qed.

(** X17.  The filter validator cannot report more than 1000 entries: when
    every query evaluates and every entry fits the field limits but more
    than 1000 queries fail, [validate_inputs] raises [ValidationError]
    instead of returning a report. *)
Theorem filter_validator_rejects_more_than_1000_entries
        (v : Cql2.Cql2Validator) (data : value) :
  forallb (evaluation_returns data) (Cql2.queries v) = true ->
  forallb entry_fits (filter_findings data (Cql2.queries v)) = true ->
  (1000 <? List.length (filter_findings data (Cql2.queries v)))%nat = true ->
  validate_inputs v data = Raise (ValidationError "errors: list too long").
Proof.
  intros Hret Hfit Hlen. unfold Cql2.validate_inputs.
  rewrite (FilterFacts.loop_findings parse_cql2_text parse_cql2_json
             evaluate data (Cql2.queries v) [] Hret Hfit).
  cbn [bind app].
  destruct (filter_findings data (Cql2.queries v)) as [|f fs] eqn:E;
    [discriminate|].
  cbn [map]. unfold BusinessRuleViolation.
  apply Nat.ltb_lt in Hlen.
  assert (Hl : (List.length (entry f :: map entry fs) <=? 1000)%nat = false).
  { apply Nat.leb_gt. simpl in *. rewrite length_map. lia. }
  now rewrite Hl.
Qed.

(** Every entry the loop accumulates keeps the Error Detail limits. *)
Lemma filter_loop_entries_ok data queries errs errs' :
  for_each (check_filter data) queries errs = Ok errs' ->
  forallb ErrorDetail_ok errs = true -> forallb ErrorDetail_ok errs' = true.
Proof.
  intros H Hok.
  apply (@ResolverMore.for_each_invariant Cql2Query (list ErrorDetail)
           (fun s => forallb ErrorDetail_ok s = true)
           (check_filter data) queries errs errs');
    [cbv beta|exact Hok|exact H].
  clear. intros s q s' Hs Hq.
  rewrite FilterFacts.check_filter_spec in Hq.
  destruct (parse_query q) as [error|ast].
  - apply bind_ok_inv in Hq. destruct Hq as (ed & Hed & Hq).
    injection Hq as <-. apply ErrorDetail_init_ok in Hed.
    rewrite forallb_app, Hs. simpl. now rewrite Hed.
  - apply bind_ok_inv in Hq. destruct Hq as ([] & _ & Hq).
    + now injection Hq as <-.
    + apply bind_ok_inv in Hq. destruct Hq as (ed & Hed & Hq).
      injection Hq as <-. apply ErrorDetail_init_ok in Hed.
      rewrite forallb_app, Hs. simpl. now rewrite Hed.
Qed.

End Filter.

Section Policy.

Variable rego_query : Rego.Interpreter -> string -> result (list (list value)).

Local Abbreviation validate_inputs := (Rego.validate_inputs rego_query).
Local Abbreviation policy_findings := (Spec.policy_findings rego_query).
Local Abbreviation queries_return := (Spec.queries_return rego_query).

Local Abbreviation finding_fits :=
  (fun f : string * value =>
     is_text (snd f) &&
     ((String.length (fst f) <=? 1024)%nat
      && (String.length (text_of (snd f)) <=? 4096)%nat)).

(** X18.  An exception of the policy engine ends the policy validator:
    when the queries before one return rows that fit, and the evaluation
    of this one raises, [validate_inputs] raises that exception and leaves
    the input mapping set in the interpreter. *)
Theorem policy_validator_raises_with_engine
        (v : Rego.RegoValidator) (data : value)
        (pre post : list string) (q : string) (e : exn) :
  let rego' := Rego.set_input (Rego.rego v) data in
  Rego.queries v = (pre ++ q :: post)%list ->
  queries_return rego' pre = true ->
  forallb finding_fits (policy_findings rego' pre) = true ->
  rego_query rego' q = Raise e ->
  validate_inputs v data
  = ({| Rego.rego := rego'; Rego.queries := Rego.queries v |}, Raise e).
Proof.
  intros rego' Hq Hret Hfit He. unfold Rego.validate_inputs.
  cbn [Rego.rego Rego.queries]. fold rego'. f_equal.
  rewrite Hq, ResolverMore.for_each_append.
  rewrite (PolicyFacts.queries_findings rego_query rego' pre [] Hret Hfit).
  cbn [bind for_each]. unfold Rego.check_query at 1. now rewrite He.
Qed.

Lemma check_result_first query errs exprs :
  Rego.check_result query errs (firstn 1 exprs)
  = Rego.check_result query errs exprs.
Proof. destruct exprs; reflexivity. Qed.

Lemma rows_first query rows errs :
  for_each (Rego.check_result query) (map (firstn 1) rows) errs
  = for_each (Rego.check_result query) rows errs.
Proof.
  revert errs; induction rows as [|exprs rows IH]; intros errs;
    [reflexivity|].
  cbn [map for_each]. rewrite check_result_first.
  destruct (Rego.check_result query errs exprs); simpl; [apply IH|reflexivity].
Qed.

(** Every entry the loops accumulate keeps the Error Detail limits. *)
Lemma policy_loop_entries_ok rego queries errs errs' :
  for_each (Rego.check_query rego_query rego) queries errs = Ok errs' ->
  forallb ErrorDetail_ok errs = true -> forallb ErrorDetail_ok errs' = true.
Proof.
  intros H Hok.
  apply (@ResolverMore.for_each_invariant string (list ErrorDetail)
           (fun s => forallb ErrorDetail_ok s = true)
           (Rego.check_query rego_query rego) queries errs errs');
    [cbv beta|exact Hok|exact H].
  clear. intros s q s' Hs Hq. unfold Rego.check_query in Hq.
  apply bind_ok_inv in Hq. destruct Hq as (rows & _ & Hq).
  apply (@ResolverMore.for_each_invariant (list value) (list ErrorDetail)
           (fun s => forallb ErrorDetail_ok s = true)
           (Rego.check_result q) rows s s');
    [cbv beta|exact Hs|exact Hq].
  clear. intros s exprs s' Hs Hr. destruct exprs as [|first rest].
  - now injection Hr as <-.
  - simpl in Hr. apply bind_ok_inv in Hr. destruct Hr as (ed & Hed & Hr).
    injection Hr as <-. apply ErrorDetail_init_ok in Hed.
    rewrite forallb_app, Hs. simpl. now rewrite Hed.
Qed.

End Policy.

(** X19.  The policy validator reads only the first expression of a
    result row: with two engines whose result rows agree up to their first
    expressions, it leaves the same validator and gives the same outcome;
    the other expressions of a row never reach the report. *)
Theorem policy_validator_reads_first_expression_only
        (rego_query rego_query' :
           Rego.Interpreter -> string -> result (list (list value)))
        (v : Rego.RegoValidator) (data : value) :
  (forall rego query,
      first_expressions (rego_query' rego query)
      = first_expressions (rego_query rego query)) ->
  Rego.validate_inputs rego_query' v data
  = Rego.validate_inputs rego_query v data.
Proof.
  intros Hsame. unfold Rego.validate_inputs. f_equal. f_equal.
  cbn [Rego.rego Rego.queries].
  generalize (@nil ErrorDetail) as errs.
  induction (Rego.queries v) as [|q qs IH]; intros errs; [reflexivity|].
  cbn [for_each]. unfold Rego.check_query at 1 3.
  specialize (Hsame (Rego.set_input (Rego.rego v) data) q).
  unfold first_expressions in Hsame.
  destruct (rego_query' (Rego.set_input (Rego.rego v) data) q) as [rows'|e'],
           (rego_query (Rego.set_input (Rego.rego v) data) q) as [rows|e];
    try discriminate.
  - injection Hsame as Hrows. cbn [bind].
    assert (Hr : for_each (Rego.check_result q) rows' errs
                 = for_each (Rego.check_result q) rows errs).
    { rewrite <- (rows_first q rows' errs), <- (rows_first q rows errs).
      apply (f_equal (fun l => for_each (Rego.check_result q) l errs)).
      exact Hrows. }
    rewrite Hr.
    destruct (for_each (Rego.check_result q) rows errs); simpl;
      [apply IH|reflexivity].
  - injection Hsame as ->. reflexivity.
Qed.

Section Reports.

Variable Ast : Type.
Variable parse_cql2_text : string -> result Ast.
Variable parse_cql2_json : dict -> result Ast.
Variable evaluate : Ast -> value -> result bool.
Variable rego_query : Rego.Interpreter -> string -> result (list (list value)).
Variable JSONSchemaValidator_validate_inputs :
  dict -> value -> result (option ProblemDetails).

Local Abbreviation validate :=
  (Cli.validate_inputs parse_cql2_text parse_cql2_json evaluate rego_query
                       JSONSchemaValidator_validate_inputs).

Lemma finish_problem_ok errors r :
  forallb ErrorDetail_ok errors = true ->
  match errors with
  | _ :: _ => pd <- BusinessRuleViolation errors ;; Ok (Some pd)
  | [] => Ok None
  end = Ok (Some r) ->
  problem_ok K_BusinessRuleViolation r.
Proof.
  intros Hok H. destruct errors as [|e errors]; [discriminate|].
  unfold BusinessRuleViolation in H.
  destruct (List.length (e :: errors) <=? 1000)%nat eqn:Hl;
    [|discriminate].
  injection H as <-. apply Nat.leb_le in Hl.
  unfold problem_ok. cbn [pd_type pd_status pd_title pd_detail pd_instance
                          pd_code pd_errors].
  repeat split; auto.
Qed.

(** X20.  A report returned by a filter or a policy validator can be
    dumped and read back: it keeps the literals and limits of the kind
    [BusinessRuleViolation], every entry of it keeps the Error Detail
    limits, and the constructor of that kind accepts its dump and gives
    the same report. *)
Theorem validator_report_dump_round_trip
        (v : Cli.Validator) (inputs : value) (r : ProblemDetails)
        (exclude_none : option bool) :
  filter_or_policy v = true ->
  validate v inputs = Ok (Some r) ->
  problem_ok K_BusinessRuleViolation r /\
  problem_init K_BusinessRuleViolation
               (ProblemDetails_model_dump exclude_none r) = Ok r.
Proof.
  intros Hk H.
  assert (Hok : problem_ok K_BusinessRuleViolation r).
  { unfold Cli.validate_inputs, Cli.invoke in H.
    destruct v as [schema | p | f]; [discriminate| |].
    - destruct (Rego.validate_inputs rego_query p inputs) as [p' outcome]
        eqn:Hv.
      simpl in H. subst outcome. unfold Rego.validate_inputs in Hv.
      injection Hv as _ Hv. apply bind_ok_inv in Hv.
      destruct Hv as (errors & Hloop & Hv).
      apply policy_loop_entries_ok in Hloop; [|reflexivity].
      exact (finish_problem_ok errors Hloop Hv).
    - simpl in H. unfold Cql2.validate_inputs in H.
      apply bind_ok_inv in H. destruct H as (errors & Hloop & H).
      apply filter_loop_entries_ok in Hloop; [|reflexivity].
      exact (finish_problem_ok errors Hloop H). }
  split; [exact Hok|]. now apply problem_dump_init.
Qed.

End Reports.

Import Sample SampleMore.

Lemma filter_validator_raises_with_evaluator_witness :
  Cql2.validate_inputs parse_text parse_json eval
                       {| Cql2.queries := [q_false; q_crash; q_true] |}
                       (VDict [])
  = Raise (KeyError "missing").
Proof.
  exact (filter_validator_raises_with_evaluator parse_text parse_json eval
           {| Cql2.queries := [q_false; q_crash; q_true] |} (VDict [])
           [q_false] [q_true] q_crash (ast := A_crash) eq_refl eq_refl
           eq_refl eq_refl eq_refl).
Defined.

Lemma filter_validator_rejects_more_than_1000_entries_witness :
  Cql2.validate_inputs parse_text parse_json eval many_false (VDict [])
  = Raise (ValidationError "errors: list too long").
Proof.
  refine (filter_validator_rejects_more_than_1000_entries
            parse_text parse_json eval many_false (VDict []) _ _ _);
    vm_compute; reflexivity.
Defined.

Lemma policy_validator_raises_with_engine_witness :
  let v := policy_validator ["data.workflow.deny[_]"; "not a query";
                             "data.workflow.none"] in
  Rego.validate_inputs query v (VDict [])
  = ({| Rego.rego := Rego.set_input (Rego.rego v) (VDict []);
        Rego.queries := Rego.queries v |},
     Raise (EngineError "rego_parse_error")).
Proof.
  exact (policy_validator_raises_with_engine query
           (policy_validator ["data.workflow.deny[_]"; "not a query";
                              "data.workflow.none"])
           (VDict []) ["data.workflow.deny[_]"] ["data.workflow.none"]
           "not a query" eq_refl eq_refl eq_refl eq_refl).
Defined.

Lemma query_with_bindings_first rego q :
  first_expressions (query_with_bindings rego q)
  = first_expressions (query rego q).
Proof.
  unfold query_with_bindings, first_expressions.
  destruct (query rego q) as [rows|e]; [|reflexivity]. f_equal.
  rewrite map_map. apply map_ext. intros [|first rest]; reflexivity.
Qed.

Lemma policy_validator_reads_first_expression_only_witness :
  Rego.validate_inputs query_with_bindings (policy_validator sample_queries)
                       (VDict [("message", VStr "too big")])
  = Rego.validate_inputs query (policy_validator sample_queries)
                         (VDict [("message", VStr "too big")]).
Proof.
  exact (policy_validator_reads_first_expression_only
           query query_with_bindings (policy_validator sample_queries)
           (VDict [("message", VStr "too big")]) query_with_bindings_first).
Defined.

Lemma validator_report_dump_round_trip_witness :
  let r := {| pd_type := Some business_rule_violation_type;
              pd_status := Some business_rule_violation_status;
              pd_title := Some business_rule_violation_title;
              pd_detail := business_rule_violation_detail;
              pd_instance := None; pd_code := None;
              pd_errors := Some [entry ("area", "out of area")] |} in
  problem_ok K_BusinessRuleViolation r /\
  problem_init K_BusinessRuleViolation (ProblemDetails_model_dump None r)
  = Ok r.
Proof.
  exact (validator_report_dump_round_trip parse_text parse_json eval query
           schema_validate
           (Cli.V_Cql2 {| Cql2.queries := [q_false; q_true] |}) (VDict [])
           None eq_refl eq_refl).
Defined.

End ValidatorMore.

(** ** ensure_bbox *)

Module BboxFacts.
Import Bbox.

Lemma split_on_length sep s :
  List.length (split_on sep s) = S (count_char sep s).
Proof.
  induction s as [|c s IH]; [reflexivity|]. simpl.
  destruct (Ascii.eqb c sep); simpl; [now rewrite IH|].
  destruct (split_on sep s) as [|piece rest]; [discriminate IH|exact IH].
Qed.

Section Geometry.

Variable Geometry : Type.
Variable float_of_string : string -> option value.
Variable box : list value -> result Geometry.
Variable other_truthy : string -> bool.

Local Abbreviation ensure_bbox :=
  (Bbox.ensure_bbox float_of_string box other_truthy).
Local Abbreviation floats := (Bbox.floats float_of_string).
Local Abbreviation truthy := (Bbox.truthy other_truthy).

Lemma floats_length pieces xs :
  floats pieces = inr xs -> List.length xs = List.length pieces.
Proof.
  revert xs; induction pieces as [|piece rest IH]; simpl; intros xs H.
  - now injection H as <-.
  - destruct (float_of_string piece); [|discriminate].
    destruct (floats rest) as [|xs']; [discriminate|].
    injection H as <-. simpl. now rewrite (IH xs').
Qed.

(** The first piece that is not a float decides the error. *)
Lemma floats_first_failure pre piece post xs :
  floats pre = inr xs ->
  float_of_string piece = None ->
  floats (pre ++ piece :: post) = inl (NotAFloat piece).
Proof.
  revert xs; induction pre as [|p pre IH]; simpl; intros xs H Hp.
  - now rewrite Hp.
  - destruct (float_of_string p); [|discriminate].
    destruct (floats pre) as [|xs']; [discriminate|].
    now rewrite (IH xs').
Qed.

(** X21.  [ensure_bbox] by the shape of its input.  A mapping without
    [bbox] raises [KeyError], and one whose [bbox] is empty (or any other
    false value) raises the function's own [ValueError], both without
    calling [box]; a mapping with a non-empty list under [bbox] gives what
    the list itself gives; a string whose comma-separated pieces are all
    floats gives what the list of these floats gives, and that list has
    one coordinate more than the string has commas; a string with a piece
    that is not a float raises on the first such piece. *)
Theorem ensure_bbox_normalizes_its_input :
  (forall d, lookup "bbox" d = None ->
             ensure_bbox (VDict d) = inl (Builtin (KeyError "bbox")))
  /\ (forall d v, lookup "bbox" d = Some v -> truthy v = false ->
                  ensure_bbox (VDict d) = inl (NoBbox (VDict d)))
  /\ (forall d l, lookup "bbox" d = Some (VList l) -> l <> [] ->
                  ensure_bbox (VDict d) = ensure_bbox (VList l))
  /\ (forall s xs, floats (split_on "," s) = inr xs ->
                   ensure_bbox (VStr s) = ensure_bbox (VList xs) /\
                   List.length xs = S (count_char "," s))
  /\ (forall s pre piece post xs,
         split_on "," s = (pre ++ piece :: post)%list ->
         floats pre = inr xs ->
         float_of_string piece = None ->
         ensure_bbox (VStr s) = inl (NotAFloat piece)).
Proof.
  split; [|split; [|split; [|split]]].
  - intros d H. unfold Bbox.ensure_bbox. now rewrite H.
  - intros d v H Hv. unfold Bbox.ensure_bbox. now rewrite H, Hv.
  - intros d l H Hl. unfold Bbox.ensure_bbox. rewrite H.
    destruct l; [contradiction|reflexivity].
  - intros s xs H. split.
    + unfold Bbox.ensure_bbox. now rewrite H.
    + rewrite (floats_length _ H). apply split_on_length.
  - intros s pre piece post xs Hs Hpre Hp. unfold Bbox.ensure_bbox.
    now rewrite Hs, (@floats_first_failure pre piece post xs Hpre Hp).
Qed.

End Geometry.

Import SampleMore.

Lemma ensure_bbox_normalizes_its_input_witness :
  let ensure := Bbox.ensure_bbox float_of_string box no_other_truthy in
  ensure (VDict [("id", VStr "aoi")]) = inl (Builtin (KeyError "bbox"))
  /\ ensure (VDict [("bbox", VList [])])
     = inl (NoBbox (VDict [("bbox", VList [])]))
  /\ ensure (VDict [("bbox", VList [VNum 1; VNum 2; VNum 3; VNum 4])])
     = inr (VNum 1, VNum 2, VNum 3, VNum 4)
  /\ (ensure (VStr "1,2,30,40") = inr (VNum 1, VNum 2, VNum 30, VNum 40) /\
      4 = 4)
  /\ ensure (VStr "1,2,,4") = inl (NotAFloat "").
Proof.
  pose proof (ensure_bbox_normalizes_its_input float_of_string box
                no_other_truthy) as (H1 & H2 & H3 & H4 & H5).
  split; [|split; [|split; [|split]]].
  - exact (H1 [("id", VStr "aoi")] eq_refl).
  - exact (H2 [("bbox", VList [])] (VList []) eq_refl eq_refl).
  - refine (H3 [("bbox", VList [VNum 1; VNum 2; VNum 3; VNum 4])]
               [VNum 1; VNum 2; VNum 3; VNum 4] eq_refl _).
    discriminate.
  - exact (H4 "1,2,30,40" [VNum 1; VNum 2; VNum 30; VNum 40] eq_refl).
  - exact (H5 "1,2,,4" ["1"; "2"] "" ["4"] [VNum 1; VNum 2]
              eq_refl eq_refl eq_refl).
Defined.

End BboxFacts.
